(** * GCE Rescue v2: the saga engine, embedded and verified

    A shallow embedding of the orchestration core of [gce_rescue_v2]:
    the operations (execute + rollback), the state tracker, the rollback
    handler, the validators with their runner, and the two orchestrators.

    Python code runs against a remote compute API.  The embedding keeps
    that shape: every operation is a computation in a small monad that
    threads an explicit state (the event log, the wall clock and the
    remote environment) and that can raise a Python exception.  The
    remote API is a handler over an abstract environment type, so the
    theorems about one operation hold for every behaviour of the remote
    side; a concrete model of the instance, its disks and its metadata
    is given further down for the end-to-end properties.

    Logging and progress rendering have no influence on control flow and
    are left out. *)

From Stdlib Require Import ZArith Lia Ascii String DecimalString.
From stdpp Require Import base strings list gmap.

Local Open Scope string_scope.
Local Open Scope Z_scope.

(** ** Python values

    API responses, request bodies and rollback data are JSON-like Python
    values.  Dictionaries are string-keyed and keep insertion order. *)

#[warnings="-register-all"]
Inductive pyval : Type :=
| PNone
| PBool (b : bool)
| PInt (z : Z)
| PStr (s : string)
| PList (l : list pyval)
| PDict (d : list (string * pyval)).

Abbreviation dict := (list (string * pyval)).

(** [bool(v)]: the truth value Python gives to [v]. *)
Definition truthy (v : pyval) : bool :=
  match v with
  | PNone => false
  | PBool b => b
  | PInt z => negb (z =? 0)
  | PStr s => negb (String.eqb s "")
  | PList l => match l with [] => false | _ => true end
  | PDict d => match d with [] => false | _ => true end
  end.

(** Lookup of a key in a dictionary body. *)
Fixpoint dict_lookup (d : dict) (k : string) : option pyval :=
  match d with
  | [] => None
  | (k', v) :: d' => if String.eqb k' k then Some v else dict_lookup d' k
  end.

(** [d.get(k)] on a dictionary body: [None] when the key is absent. *)
Definition dict_get (d : dict) (k : string) : pyval :=
  match dict_lookup d k with Some v => v | None => PNone end.

(** [truthy] of an optional dictionary: [not rollback_data] covers both
    [None] and the empty dictionary. *)
Definition truthy_data (rd : option dict) : bool :=
  match rd with
  | Some d => truthy (PDict d)
  | None => false
  end.

(** [a == b]. Dictionaries compare as mappings. *)
Fixpoint py_eqb (a b : pyval) {struct a} : bool :=
  match a, b with
  | PNone, PNone => true
  | PBool x, PBool y => Bool.eqb x y
  | PBool x, PInt y => Z.b2z x =? y
  | PInt x, PBool y => x =? Z.b2z y
  | PInt x, PInt y => x =? y
  | PStr x, PStr y => String.eqb x y
  | PList xs, PList ys =>
      (fix go (xs ys : list pyval) {struct xs} : bool :=
         match xs, ys with
         | [], [] => true
         | x :: xs', y :: ys' => py_eqb x y && go xs' ys'
         | _, _ => false
         end) xs ys
  | PDict d, PDict e =>
      Nat.eqb (length d) (length e) &&
      (fix go (d : dict) {struct d} : bool :=
         match d with
         | [] => true
         | (k, v) :: d' =>
             match dict_lookup e k with
             | Some w => py_eqb v w
             | None => false
             end && go d'
         end) d
  | _, _ => false
  end.

(** [v == 'literal']. *)
Definition py_eq_str (v : pyval) (s : string) : bool := py_eqb v (PStr s).

(** ** Strings *)

(** [str(n)] for an integer. *)
Definition str_of_Z (z : Z) : string := NilZero.string_of_int (Z.to_int z).

(** [str(v)] as used inside f-strings, for the values that reach one. *)
Definition py_str (v : pyval) : string :=
  match v with
  | PNone => "None"
  | PBool true => "True"
  | PBool false => "False"
  | PInt z => str_of_Z z
  | PStr s => s
  | PList _ => "[...]"
  | PDict _ => "{...}"
  end.

(** [needle in hay] for two strings. *)
Fixpoint is_prefix (p s : string) : bool :=
  match p, s with
  | EmptyString, _ => true
  | String a p', String b s' => Ascii.eqb a b && is_prefix p' s'
  | String _ _, EmptyString => false
  end.

Fixpoint str_contains (needle hay : string) : bool :=
  is_prefix needle hay ||
  match hay with
  | EmptyString => false
  | String _ hay' => str_contains needle hay'
  end.

(** [s.split('/')[-1]]: what follows the last slash. *)
Fixpoint last_segment_from (acc s : string) : string :=
  match s with
  | EmptyString => acc
  | String c s' =>
      if Ascii.eqb c "/"%char then last_segment_from s' s'
      else last_segment_from acc s'
  end.

Definition last_segment (s : string) : string := last_segment_from s s.

(** ** Exceptions and outcomes *)

Inductive exn : Type :=
| HttpError (status : Z) (msg : string)
| DefaultCredentialsError (msg : string)
| KeyError (key : string)
| TypeError (msg : string)
| AttributeError (msg : string)
| AuthenticationError (msg : string)
| OtherError (msg : string).

(** [str(e)]. *)
Definition str_of_exn (e : exn) : string :=
  match e with
  | HttpError st msg => "<HttpError " ++ str_of_Z st ++ " " ++ msg ++ ">"
  | DefaultCredentialsError msg => msg
  | KeyError k => "'" ++ k ++ "'"
  | TypeError msg => msg
  | AttributeError msg => msg
  | AuthenticationError msg => msg
  | OtherError msg => msg
  end.

(** What running a piece of Python code yields: a value, an exception,
    or no answer at all.  [Hang] stands for a loop that never leaves; no
    [except] clause catches it. *)
Inductive outcome (A : Type) : Type :=
| Ok (a : A)
| Raise (e : exn)
| Hang.
Arguments Ok {A} a.
Arguments Raise {A} e.
Arguments Hang {A}.

(** [v[k]] with a string key. *)
Definition py_item (v : pyval) (k : string) : outcome pyval :=
  match v with
  | PDict d =>
      match dict_lookup d k with
      | Some x => Ok x
      | None => Raise (KeyError k)
      end
  | PList _ => Raise (TypeError "list indices must be integers or slices, not str")
  | PStr _ => Raise (TypeError "string indices must be integers, not 'str'")
  | _ => Raise (TypeError "object is not subscriptable")
  end.

(** [v.get(k, default)]. *)
Definition py_get (v : pyval) (k : string) (default : pyval) : outcome pyval :=
  match v with
  | PDict d =>
      match dict_lookup d k with
      | Some x => Ok x
      | None => Ok default
      end
  | _ => Raise (AttributeError "object has no attribute 'get'")
  end.

(** The characters of a string, as Python iterates over them. *)
Fixpoint chars (s : string) : list pyval :=
  match s with
  | EmptyString => []
  | String c s' => PStr (String c EmptyString) :: chars s'
  end.

(** The sequence [for x in v] runs over. *)
Definition py_iter (v : pyval) : outcome (list pyval) :=
  match v with
  | PList l => Ok l
  | PDict d => Ok (List.map (fun kv => PStr (fst kv)) d)
  | PStr s => Ok (chars s)
  | _ => Raise (TypeError "object is not iterable")
  end.

(** ['literal' in v]. *)
Definition py_contains (v : pyval) (needle : string) : outcome bool :=
  match v with
  | PList l => Ok (existsb (fun x => py_eq_str x needle) l)
  | PDict d => Ok (existsb (fun kv => String.eqb (fst kv) needle) d)
  | PStr s => Ok (str_contains needle s)
  | _ => Raise (TypeError "argument is not iterable")
  end.

(** [v.split('/')[-1]]. *)
Definition py_split_last (v : pyval) : outcome string :=
  match v with
  | PStr s => Ok (last_segment s)
  | _ => Raise (AttributeError "object has no attribute 'split'")
  end.

(** ** The remote API

    One constructor per request the code sends, with the keyword
    arguments it passes.  [auth_default] and [credentials_refresh] are the
    two calls into the credential library. *)

Inductive ApiCall : Type :=
| instances_get (project zone : string) (instance : pyval)
| instances_stop (project zone : string) (instance : pyval)
| instances_start (project zone : string) (instance : pyval)
| instances_attachDisk (project zone : string) (instance body : pyval)
| instances_detachDisk (project zone : string) (instance deviceName : pyval)
| instances_setMetadata (project zone : string) (instance body : pyval)
| instances_testIamPermissions (project zone : string) (resource body : pyval)
| disks_insert (project zone : string) (body : pyval)
| disks_get (project zone : string) (disk : pyval)
| disks_delete (project zone : string) (disk : pyval)
| disks_createSnapshot (project zone : string) (disk body : pyval)
| snapshots_get (project : string) (snapshot : pyval)
| snapshots_delete (project : string) (snapshot : pyval)
| auth_default
| credentials_refresh.

(** What the remote side answers to [.execute()]. *)
Inductive reply : Type :=
| Reply (v : pyval)
| Fault (e : exn).

(** The compute client: to a request and the current remote environment
    it gives the answer, the next environment and the seconds the call
    took. *)
Definition Compute (W : Type) : Type := ApiCall -> W -> reply * W * nat.

(** The log records requests in the order they are sent, and each call
    of an operation's [rollback] by the rollback handler. *)
Inductive Event : Type :=
| Request (c : ApiCall)
| Compensate (operation_name : string) (rollback_data : dict).

Record State (W : Type) : Type := mkState {
  log : list Event;
  now : Z;     (* time.time(), in whole seconds *)
  env : W
}.
Arguments mkState {W} log now env.
Arguments log {W} s.
Arguments now {W} s.
Arguments env {W} s.

(** ** The monad of Python code *)

Definition M (W A : Type) : Type := State W -> outcome A * State W.

Definition ret {W A} (a : A) : M W A := fun s => (Ok a, s).

Definition bind {W A B} (m : M W A) (k : A -> M W B) : M W B :=
  fun s =>
    match m s with
    | (Ok a, s') => k a s'
    | (Raise e, s') => (Raise e, s')
    | (Hang, s') => (Hang, s')
    end.

Definition raise {W A} (e : exn) : M W A := fun s => (Raise e, s).

Definition hang {W A} : M W A := fun s => (Hang, s).

(** [try: m  except Exception as e: h e]. *)
Definition catch {W A} (m : M W A) (h : exn -> M W A) : M W A :=
  fun s =>
    match m s with
    | (Raise e, s') => h e s'
    | r => r
    end.

Definition lift {W A} (o : outcome A) : M W A := fun s => (o, s).

Notation "'let*' x ':=' c1 'in' c2" := (bind c1 (fun x => c2))
  (at level 10, x pattern, c1 at level 100, c2 at level 200).

Definition time_time {W} : M W Z := fun s => (Ok (now s), s).

Definition time_sleep {W} (seconds : Z) : M W unit :=
  fun s => (Ok tt, mkState (log s) (now s + seconds) (env s)).

Definition emit {W} (e : Event) : M W unit :=
  fun s => (Ok tt, mkState (log s ++ [e]) (now s) (env s)).

(** [compute.<resource>().<method>(...).execute()]. *)
Definition request {W} (compute : Compute W) (c : ApiCall) : M W pyval :=
  fun s =>
    let '(r, w, dt) := compute c (env s) in
    let s' := mkState (log s ++ [Request c]) (now s + Z.of_nat dt) w in
    match r with
    | Reply v => (Ok v, s')
    | Fault e => (Raise e, s')
    end.

(** [len(v)]. *)
Definition py_len (v : pyval) : outcome Z :=
  match v with
  | PList l => Ok (Z.of_nat (length l))
  | PDict d => Ok (Z.of_nat (length d))
  | PStr s => Ok (Z.of_nat (String.length s))
  | _ => Raise (TypeError "object has no len()")
  end.

(** ** operations/base.py *)

Record OperationResult : Type := mkResult {
  operation_name : string;
  success : bool;
  message : string;
  rollback_data : option dict;
  error : option string
}.

(** The fields every operation instance carries ([self.compute],
    [self.project], [self.zone]). *)
Record BaseOperation (W : Type) : Type := mkOperation {
  compute : Compute W;
  project : string;
  zone : string
}.
Arguments mkOperation {W} compute project zone.
Arguments compute {W} b.
Arguments project {W} b.
Arguments zone {W} b.

(** The body of [while True] in [_wait_for_status], unrolled [fuel]
    times; running out of fuel is [Hang]. *)
Fixpoint wait_loop {W} (fuel : nat) (check_func : M W pyval)
    (target_status : string) (timeout start_time : Z) : M W bool :=
  match fuel with
  | O => hang
  | S fuel' =>
      let* t := time_time in
      if timeout <? t - start_time then ret false
      else
        let* current_status := check_func in
        if py_eq_str current_status target_status then ret true
        else
          let* _ := time_sleep 5 in
          wait_loop fuel' check_func target_status timeout start_time
  end.

(** A number of rounds no wait with this timeout can use up: every round
    sleeps five seconds. *)
Definition poll_budget (timeout : Z) : nat := S (S (Z.to_nat (timeout / 5))).

Definition _wait_for_status {W} (check_func : M W pyval)
    (target_status : string) (timeout : Z) : M W bool :=
  let* start_time := time_time in
  wait_loop (poll_budget timeout) check_func target_status timeout start_time.

(** ** operations/stop_vm.py *)

Module StopVMOperation.

Definition name : string := "Stop VM".

Definition get_status {W} (self : BaseOperation W) (vm_name : pyval) : M W pyval :=
  let* vm := request (compute self)
               (instances_get (project self) (zone self) vm_name) in
  lift (py_item vm "status").

Definition execute {W} (self : BaseOperation W) (vm_name : string)
    (timeout : Z) : M W OperationResult :=
  catch
    (let* vm := request (compute self)
                  (instances_get (project self) (zone self) (PStr vm_name)) in
     let* original_status := lift (py_item vm "status") in
     if py_eq_str original_status "RUNNING" then
       let* _ := request (compute self)
                   (instances_stop (project self) (zone self) (PStr vm_name)) in
       let* start_time := time_time in
       let* reached := _wait_for_status (get_status self (PStr vm_name))
                         "TERMINATED" timeout in
       if negb reached then
         ret (mkResult name false
                ("Timeout waiting for VM to stop (>" ++ str_of_Z timeout ++ "s)")
                None None)
       else
         let* t := time_time in
         let duration := t - start_time in
         ret (mkResult name true
                ("VM stopped (" ++ str_of_Z duration ++ "s)")
                (Some [("vm_name", PStr vm_name);
                       ("original_status", original_status)])
                None)
     else if py_eq_str original_status "TERMINATED" then
       ret (mkResult name true "VM already stopped"
              (Some [("vm_name", PStr vm_name);
                     ("original_status", original_status)])
              None)
     else
       ret (mkResult name false
              ("VM is in unexpected state: " ++ py_str original_status)
              None
              (Some ("Cannot stop VM in state: " ++ py_str original_status))))
    (fun e => ret (mkResult name false "Failed to stop VM" None
                     (Some (str_of_exn e)))).

Definition rollback {W} (self : BaseOperation W) (rollback_data : dict)
    : M W bool :=
  catch
    (let* vm_name := lift (py_item (PDict rollback_data) "vm_name") in
     let* original_status := lift (py_item (PDict rollback_data) "original_status") in
     if py_eq_str original_status "RUNNING" then
       let* _ := request (compute self)
                   (instances_start (project self) (zone self) vm_name) in
       let* reached := _wait_for_status (get_status self vm_name) "RUNNING" 300 in
       if reached then ret true else ret false
     else ret true)
    (fun e => ret false).

End StopVMOperation.

(** ** operations/start_vm.py *)

Module StartVMOperation.

Definition name : string := "Start VM".

Definition get_status {W} (self : BaseOperation W) (vm_name : pyval) : M W pyval :=
  let* vm := request (compute self)
               (instances_get (project self) (zone self) vm_name) in
  lift (py_item vm "status").

Definition execute {W} (self : BaseOperation W) (vm_name : string)
    (timeout : Z) : M W OperationResult :=
  catch
    (let* vm := request (compute self)
                  (instances_get (project self) (zone self) (PStr vm_name)) in
     let* original_status := lift (py_item vm "status") in
     if py_eq_str original_status "TERMINATED" then
       let* _ := request (compute self)
                   (instances_start (project self) (zone self) (PStr vm_name)) in
       let* start_time := time_time in
       let* reached := _wait_for_status (get_status self (PStr vm_name))
                         "RUNNING" timeout in
       if negb reached then
         ret (mkResult name false
                ("Timeout waiting for VM to start (>" ++ str_of_Z timeout ++ "s)")
                None None)
       else
         let* t := time_time in
         let duration := t - start_time in
         ret (mkResult name true
                ("VM started (" ++ str_of_Z duration ++ "s)")
                (Some [("vm_name", PStr vm_name);
                       ("original_status", original_status)])
                None)
     else if py_eq_str original_status "RUNNING" then
       ret (mkResult name true "VM already running"
              (Some [("vm_name", PStr vm_name);
                     ("original_status", original_status)])
              None)
     else
       ret (mkResult name false
              ("VM is in unexpected state: " ++ py_str original_status)
              None
              (Some ("Cannot start VM in state: " ++ py_str original_status))))
    (fun e => ret (mkResult name false "Failed to start VM" None
                     (Some (str_of_exn e)))).

Definition rollback {W} (self : BaseOperation W) (rollback_data : dict)
    : M W bool :=
  catch
    (let* vm_name := lift (py_item (PDict rollback_data) "vm_name") in
     let* original_status := lift (py_item (PDict rollback_data) "original_status") in
     if py_eq_str original_status "TERMINATED" then
       let* _ := request (compute self)
                   (instances_stop (project self) (zone self) vm_name) in
       let* reached := _wait_for_status (get_status self vm_name) "TERMINATED" 300 in
       if reached then ret true else ret false
     else ret true)
    (fun e => ret false).

End StartVMOperation.

(** ** operations/create_disk.py *)

Module CreateDiskOperation.

Definition name : string := "Create Disk".

(** The nested [get_status]: any failure of the lookup reads as
    ['CREATING']. *)
Definition get_status {W} (self : BaseOperation W) (disk_name : pyval) : M W pyval :=
  catch
    (let* disk := request (compute self)
                    (disks_get (project self) (zone self) disk_name) in
     lift (py_item disk "status"))
    (fun _ => ret (PStr "CREATING")).

Definition execute {W} (self : BaseOperation W) (disk_name : pyval)
    (size_gb : Z) (disk_type source_image : string) (timeout : Z)
    : M W OperationResult :=
  catch
    (let disk_body := PDict
       [("name", disk_name);
        ("sizeGb", PStr (str_of_Z size_gb));
        ("type", PStr ("projects/" ++ project self ++ "/zones/" ++ zone self
                         ++ "/diskTypes/" ++ disk_type));
        ("sourceImage", PStr source_image)] in
     let* _ := request (compute self)
                 (disks_insert (project self) (zone self) disk_body) in
     let* start_time := time_time in
     let* reached := _wait_for_status (get_status self disk_name) "READY" timeout in
     if negb reached then
       ret (mkResult name false
              ("Timeout waiting for disk creation (>" ++ str_of_Z timeout ++ "s)")
              None None)
     else
       let* t := time_time in
       let duration := t - start_time in
       ret (mkResult name true
              ("Disk created (" ++ str_of_Z duration ++ "s)")
              (Some [("disk_name", disk_name)])
              None))
    (fun e => ret (mkResult name false "Failed to create disk" None
                     (Some (str_of_exn e)))).

Definition rollback {W} (self : BaseOperation W) (rollback_data : dict)
    : M W bool :=
  catch
    (let* disk_name := lift (py_item (PDict rollback_data) "disk_name") in
     let* _ := request (compute self)
                 (disks_delete (project self) (zone self) disk_name) in
     let* _ := time_sleep 3 in
     ret true)
    (fun e => ret false).

End CreateDiskOperation.

(** ** operations/attach_disk.py *)

Module AttachDiskOperation.

Definition name : string := "Attach Disk".

Definition execute {W} (self : BaseOperation W) (vm_name : string)
    (disk_name : pyval) (boot auto_delete read_only : bool)
    : M W OperationResult :=
  catch
    (let attach_body := PDict
       [("source", PStr ("projects/" ++ project self ++ "/zones/" ++ zone self
                           ++ "/disks/" ++ py_str disk_name));
        ("boot", PBool boot);
        ("autoDelete", PBool auto_delete);
        ("deviceName", disk_name);
        ("mode", PStr (if read_only then "READ_ONLY" else "READ_WRITE"))] in
     let* _ := request (compute self)
                 (instances_attachDisk (project self) (zone self)
                    (PStr vm_name) attach_body) in
     let* _ := time_sleep 3 in
     ret (mkResult name true "Disk attached"
            (Some [("vm_name", PStr vm_name); ("device_name", disk_name)])
            None))
    (fun e => ret (mkResult name false "Failed to attach disk" None
                     (Some (str_of_exn e)))).

Definition rollback {W} (self : BaseOperation W) (rollback_data : dict)
    : M W bool :=
  catch
    (let* vm_name := lift (py_item (PDict rollback_data) "vm_name") in
     let* device_name := lift (py_item (PDict rollback_data) "device_name") in
     let* _ := request (compute self)
                 (instances_detachDisk (project self) (zone self)
                    vm_name device_name) in
     let* _ := time_sleep 2 in
     ret true)
    (fun e => ret false).

End AttachDiskOperation.

(** ** operations/detach_disk.py *)

Module DetachDiskOperation.

Definition name : string := "Detach Disk".

(** The [for disk in vm.get('disks', [])] loop: the attachment of the
    first disk whose device name matches, or [None]. *)
Fixpoint find_disk_info {W} (disks : list pyval) (device_name : pyval)
    : M W (option dict) :=
  match disks with
  | [] => ret None
  | disk :: rest =>
      let* dn := lift (py_item disk "deviceName") in
      if py_eqb dn device_name then
        let* source := lift (py_item disk "source") in
        let* boot := lift (py_get disk "boot" (PBool false)) in
        let* autoDelete := lift (py_get disk "autoDelete" (PBool false)) in
        let* deviceName := lift (py_item disk "deviceName") in
        let* mode := lift (py_get disk "mode" (PStr "READ_WRITE")) in
        ret (Some [("source", source);
                   ("boot", boot);
                   ("autoDelete", autoDelete);
                   ("deviceName", deviceName);
                   ("mode", mode)])
      else find_disk_info rest device_name
  end.

Definition execute {W} (self : BaseOperation W) (vm_name : string)
    (device_name : pyval) : M W OperationResult :=
  catch
    (let* vm := request (compute self)
                  (instances_get (project self) (zone self) (PStr vm_name)) in
     let* disks_v := lift (py_get vm "disks" (PList [])) in
     let* disks := lift (py_iter disks_v) in
     let* disk_info := find_disk_info disks device_name in
     match disk_info with
     | None =>
         ret (mkResult name false
                ("Disk " ++ py_str device_name ++ " not found on VM")
                None None)
     | Some info =>
         let* _ := request (compute self)
                     (instances_detachDisk (project self) (zone self)
                        (PStr vm_name) device_name) in
         let* _ := time_sleep 2 in
         ret (mkResult name true "Disk detached"
                (Some [("vm_name", PStr vm_name); ("disk_info", PDict info)])
                None)
     end)
    (fun e => ret (mkResult name false "Failed to detach disk" None
                     (Some (str_of_exn e)))).

Definition rollback {W} (self : BaseOperation W) (rollback_data : dict)
    : M W bool :=
  catch
    (let* vm_name := lift (py_item (PDict rollback_data) "vm_name") in
     let* disk_info := lift (py_item (PDict rollback_data) "disk_info") in
     let* source := lift (py_item disk_info "source") in
     let* boot := lift (py_item disk_info "boot") in
     let* autoDelete := lift (py_item disk_info "autoDelete") in
     let* deviceName := lift (py_item disk_info "deviceName") in
     let* mode := lift (py_item disk_info "mode") in
     let attach_body := PDict
       [("source", source);
        ("boot", boot);
        ("autoDelete", autoDelete);
        ("deviceName", deviceName);
        ("mode", mode)] in
     let* _ := request (compute self)
                 (instances_attachDisk (project self) (zone self)
                    vm_name attach_body) in
     let* _ := time_sleep 2 in
     ret true)
    (fun e => ret false).

End DetachDiskOperation.

(** ** operations/set_metadata.py *)

Module SetMetadataOperation.

Definition name : string := "Set Metadata".

Definition execute {W} (self : BaseOperation W) (vm_name : string)
    (metadata_items : list pyval) : M W OperationResult :=
  catch
    (let* vm := request (compute self)
                  (instances_get (project self) (zone self) (PStr vm_name)) in
     let* original_metadata := lift (py_get vm "metadata" (PDict [])) in
     let* fingerprint := lift (py_get original_metadata "fingerprint" PNone) in
     (* the debug line measures the original items *)
     let* original_items := lift (py_get original_metadata "items" (PList [])) in
     let* _ := lift (py_len original_items) in
     let new_metadata := PDict
       [("fingerprint", fingerprint);
        ("items", PList metadata_items)] in
     let* _ := request (compute self)
                 (instances_setMetadata (project self) (zone self)
                    (PStr vm_name) new_metadata) in
     let* _ := time_sleep 2 in
     ret (mkResult name true
            ("Metadata set (" ++ str_of_Z (Z.of_nat (length metadata_items))
               ++ " items)")
            (Some [("vm_name", PStr vm_name);
                   ("original_metadata", original_metadata)])
            None))
    (fun e => ret (mkResult name false "Failed to set metadata" None
                     (Some (str_of_exn e)))).

Definition rollback {W} (self : BaseOperation W) (rollback_data : dict)
    : M W bool :=
  catch
    (let* vm_name := lift (py_item (PDict rollback_data) "vm_name") in
     let* original_metadata := lift (py_item (PDict rollback_data) "original_metadata") in
     let* vm := request (compute self)
                  (instances_get (project self) (zone self) vm_name) in
     let* metadata := lift (py_get vm "metadata" (PDict [])) in
     let* current_fingerprint := lift (py_get metadata "fingerprint" PNone) in
     let* items := lift (py_get original_metadata "items" (PList [])) in
     let restore_metadata := PDict
       [("fingerprint", current_fingerprint);
        ("items", items)] in
     let* _ := request (compute self)
                 (instances_setMetadata (project self) (zone self)
                    vm_name restore_metadata) in
     let* _ := time_sleep 2 in
     ret true)
    (fun e => ret false).

End SetMetadataOperation.

(** ** operations/delete_disk.py *)

Module DeleteDiskOperation.

Definition name : string := "Delete Disk".

Definition execute {W} (self : BaseOperation W) (disk_name : pyval)
    : M W OperationResult :=
  catch
    (let* _ := request (compute self)
                 (disks_delete (project self) (zone self) disk_name) in
     let* _ := time_sleep 2 in
     ret (mkResult name true "Disk deleted" None None))
    (fun e => ret (mkResult name false "Failed to delete disk" None
                     (Some (str_of_exn e)))).

(** A deletion cannot be undone. *)
Definition rollback {W} (self : BaseOperation W) (rollback_data : dict)
    : M W bool :=
  ret false.

End DeleteDiskOperation.

(** ** operations/create_snapshot.py *)

Module CreateSnapshotOperation.

Definition name : string := "Create Snapshot".

(** The [while True] of [execute], unrolled [fuel] times.  The [try]
    inside the loop either returns a result or falls through to the
    sleep. *)
Fixpoint poll {W} (fuel : nat) (self : BaseOperation W)
    (disk_name snapshot_name : pyval) (timeout start_time : Z)
    : M W OperationResult :=
  match fuel with
  | O => hang
  | S fuel' =>
      let* t := time_time in
      let elapsed := t - start_time in
      if timeout <? elapsed then
        ret (mkResult name false
               ("Snapshot creation timeout after " ++ str_of_Z timeout ++ "s")
               None (Some "timeout"))
      else
        let* returned :=
          catch
            (let* snapshot := request (compute self)
                                (snapshots_get (project self) snapshot_name) in
             let* status := lift (py_get snapshot "status" (PStr "UNKNOWN")) in
             if py_eq_str status "READY" then
               let* t' := time_time in
               let duration := t' - start_time in
               ret (Some (mkResult name true
                            ("Snapshot created: " ++ py_str snapshot_name
                               ++ " (" ++ str_of_Z duration ++ "s)")
                            (Some [("snapshot_name", snapshot_name);
                                   ("disk_name", disk_name);
                                   ("created_by_operation", PBool true)])
                            None))
             else if py_eq_str status "FAILED" then
               ret (Some (mkResult name false "Snapshot creation failed"
                            None (Some "snapshot_failed")))
             else ret None)
            (fun _ => ret None) in
        match returned with
        | Some r => ret r
        | None =>
            let* _ := time_sleep 5 in
            poll fuel' self disk_name snapshot_name timeout start_time
        end
  end.

Definition execute {W} (self : BaseOperation W) (disk_name : pyval)
    (snapshot_name description : pyval) (timeout : Z)
    : M W OperationResult :=
  let* snapshot_name :=
    (if negb (truthy snapshot_name) then
       let* timestamp := time_time in
       ret (PStr ("pre-rescue-" ++ py_str disk_name ++ "-" ++ str_of_Z timestamp))
     else ret snapshot_name) in
  let description :=
    if negb (truthy description)
    then PStr ("Pre-rescue safety snapshot of " ++ py_str disk_name)
    else description in
  catch
    (let body := PDict [("name", snapshot_name); ("description", description)] in
     let* _ := request (compute self)
                 (disks_createSnapshot (project self) (zone self) disk_name body) in
     let* start_time := time_time in
     poll (poll_budget timeout) self disk_name snapshot_name timeout start_time)
    (fun e => ret (mkResult name false "Failed to create snapshot" None
                     (Some (str_of_exn e)))).

Definition rollback {W} (self : BaseOperation W) (rollback_data : dict)
    : M W bool :=
  if negb (truthy (dict_get rollback_data "created_by_operation")) then
    ret true
  else
    let snapshot_name := dict_get rollback_data "snapshot_name" in
    if negb (truthy snapshot_name) then ret true
    else
      catch
        (let* _ := request (compute self)
                     (snapshots_delete (project self) snapshot_name) in
         let* _ := time_sleep 2 in
         ret true)
        (fun e => ret true).

End CreateSnapshotOperation.

(** ** The closed set of operation classes

    [operation.rollback(...)] dispatches on the class of the instance. *)

Inductive OperationClass : Type :=
| StopVM | StartVM | CreateDisk | AttachDisk | DetachDisk
| SetMetadata | DeleteDisk | CreateSnapshot.

Record Operation (W : Type) : Type := mkOp {
  class : OperationClass;
  self : BaseOperation W
}.
Arguments mkOp {W} class self.
Arguments class {W} o.
Arguments self {W} o.

Definition Operation_rollback {W} (operation : Operation W)
    (rollback_data : dict) : M W bool :=
  match class operation with
  | StopVM => StopVMOperation.rollback (self operation) rollback_data
  | StartVM => StartVMOperation.rollback (self operation) rollback_data
  | CreateDisk => CreateDiskOperation.rollback (self operation) rollback_data
  | AttachDisk => AttachDiskOperation.rollback (self operation) rollback_data
  | DetachDisk => DetachDiskOperation.rollback (self operation) rollback_data
  | SetMetadata => SetMetadataOperation.rollback (self operation) rollback_data
  | DeleteDisk => DeleteDiskOperation.rollback (self operation) rollback_data
  | CreateSnapshot => CreateSnapshotOperation.rollback (self operation) rollback_data
  end.

(** ** orchestration/state.py *)

Record OperationState : Type := mkOpState {
  st_operation_name : string;
  st_success : bool;
  st_message : string;
  st_rollback_data : option dict;
  st_timestamp : Z
}.

Module StateTracker.

Record t : Type := mk {
  operations : list OperationState;
  workflow_start_time : Z
}.

Definition init (now : Z) : t := mk [] now.

(** [add_operation]; [timestamp] is the clock reading the new entry
    takes. *)
Definition add_operation (self : t) (operation_name : string)
    (success : bool) (message : string) (rollback_data : option dict)
    (timestamp : Z) : t :=
  mk (operations self ++
        [mkOpState operation_name success message rollback_data timestamp])
     (workflow_start_time self).

Definition get_successful_operations (self : t) : list OperationState :=
  List.filter (fun op => st_success op) (operations self).

Definition get_failed_operations (self : t) : list OperationState :=
  List.filter (fun op => negb (st_success op)) (operations self).

Definition get_rollback_operations (self : t) : list OperationState :=
  let successful := get_successful_operations self in
  rev successful.

Definition all_succeeded (self : t) : bool :=
  forallb (fun op => st_success op) (operations self).

End StateTracker.

(** ** orchestration/rollback.py *)

Module RollbackHandler.

(** One round of [for op_state in rollback_ops]; the result is the new
    value of [all_succeeded]. *)
Definition rollback_step {W} (operations_map : gmap string (Operation W))
    (all_succeeded : bool) (op_state : OperationState) : M W bool :=
  match operations_map !! st_operation_name op_state with
  | None => ret false
  | Some operation =>
      match st_rollback_data op_state with
      | Some data =>
          if negb (truthy (PDict data)) then ret all_succeeded
          else
            catch
              (let* _ := emit (Compensate (st_operation_name op_state) data) in
               let* success := Operation_rollback operation data in
               if success then ret all_succeeded else ret false)
              (fun e => ret false)
      | None => ret all_succeeded
      end
  end.

Fixpoint rollback_loop {W} (operations_map : gmap string (Operation W))
    (rollback_ops : list OperationState) (all_succeeded : bool) : M W bool :=
  match rollback_ops with
  | [] => ret all_succeeded
  | op_state :: rest =>
      let* all_succeeded' := rollback_step operations_map all_succeeded op_state in
      rollback_loop operations_map rest all_succeeded'
  end.

Definition rollback {W} (state_tracker : StateTracker.t)
    (operations_map : gmap string (Operation W)) : M W bool :=
  let rollback_ops := StateTracker.get_rollback_operations state_tracker in
  match rollback_ops with
  | [] => ret true
  | _ => rollback_loop operations_map rollback_ops true
  end.

End RollbackHandler.

(** ** validators/base.py *)

Record ValidationResult : Type := mkValidation {
  validator_name : string;
  passed : bool;
  v_message : string;
  details : option dict
}.

Module ValidationResults.

(** The [results] list of the collection. *)
Definition t : Type := list ValidationResult.

Definition init : t := [].

Definition add (self : t) (result : ValidationResult) : t :=
  (self ++ [result])%list.

Definition all_passed (self : t) : bool := forallb passed self.

Definition get_failures (self : t) : list ValidationResult :=
  List.filter (fun r => negb (passed r)) self.

End ValidationResults.

(** The fields of a validator instance. *)
Record BaseValidator (W : Type) : Type := mkValidatorSelf {
  v_compute : Compute W;
  v_project : string;
  v_zone : string;
  v_vm_name : pyval
}.
Arguments mkValidatorSelf {W} v_compute v_project v_zone v_vm_name.
Arguments v_compute {W} b.
Arguments v_project {W} b.
Arguments v_zone {W} b.
Arguments v_vm_name {W} b.

(** What the runner needs of a validator: its display name and its
    [validate] method. *)
Record Validator (W : Type) : Type := mkValidator {
  name_of : string;
  validate : M W ValidationResult
}.
Arguments mkValidator {W} name_of validate.
Arguments name_of {W} v.
Arguments validate {W} v.

Module ValidationRunner.

Fixpoint run_loop {W} (validators : list (Validator W))
    (results : ValidationResults.t) : M W ValidationResults.t :=
  match validators with
  | [] => ret results
  | validator :: rest =>
      let* result := validate validator in
      run_loop rest (ValidationResults.add results result)
  end.

Definition run_all {W} (validators : list (Validator W))
    : M W ValidationResults.t :=
  run_loop validators ValidationResults.init.

End ValidationRunner.

(** ** validators/credentials.py *)

Module CredentialsValidator.

Definition name : string := "Credentials & Authentication".

Definition fix_hint : string * pyval :=
  ("fix", PStr "gcloud auth application-default login").

Definition validate {W} (self : BaseValidator W) : M W ValidationResult :=
  catch
    (let* found := request (v_compute self) auth_default in
     let* credentials := lift (py_item found "credentials") in
     let* project := lift (py_item found "project") in
     let* valid := lift (py_item credentials "valid") in
     let* early :=
       (if negb (truthy valid) then
          let* expired := lift (py_item credentials "expired") in
          let* refresh_token := lift (py_item credentials "refresh_token") in
          if truthy expired && truthy refresh_token then
            catch
              (let* _ := request (v_compute self) credentials_refresh in
               ret None)
              (fun e =>
                 ret (Some (mkValidation name false
                              "Credentials expired and refresh failed"
                              (Some [("error", PStr (str_of_exn e)); fix_hint]))))
          else
            ret (Some (mkValidation name false
                         "Credentials are invalid or expired"
                         (Some [fix_hint])))
        else ret None) in
     match early with
     | Some r => ret r
     | None =>
         let* ty := lift (py_item credentials "type") in
         ret (mkValidation name true
                ("Authenticated to project: " ++ py_str project)
                (Some [("project", project); ("credentials_type", ty)]))
     end)
    (fun e =>
       match e with
       | DefaultCredentialsError msg =>
           ret (mkValidation name false "No credentials found"
                  (Some [("error", PStr msg); fix_hint]))
       | _ =>
           ret (mkValidation name false
                  ("Unexpected error checking credentials: " ++ str_of_exn e)
                  (Some [("error", PStr (str_of_exn e))]))
       end).

Definition make {W} (self : BaseValidator W) : Validator W :=
  mkValidator name (validate self).

End CredentialsValidator.

(** ** validators/iam_permissions.py *)

Module IAMPermissionsValidator.

Definition name : string := "IAM Permissions".

Definition INSTANCE_PERMISSIONS : list string :=
  ["compute.instances.get";
   "compute.instances.stop";
   "compute.instances.start";
   "compute.instances.attachDisk";
   "compute.instances.detachDisk";
   "compute.instances.setMetadata"].

Definition DISK_PERMISSIONS : list string :=
  ["compute.disks.create";
   "compute.disks.delete";
   "compute.disks.get"].

Definition SNAPSHOT_PERMISSIONS : list string :=
  ["compute.disks.createSnapshot";
   "compute.snapshots.create";
   "compute.snapshots.get";
   "compute.snapshots.delete"].

Definition strs (l : list string) : pyval := PList (List.map PStr l).

Definition required_roles : pyval :=
  strs ["roles/compute.instanceAdmin.v1 (for VM operations)";
        "roles/compute.storageAdmin (for disk and snapshot operations)"].

(** [[p for p in INSTANCE_PERMISSIONS if p not in granted_permissions]]. *)
Fixpoint missing_from {W} (permissions : list string)
    (granted_permissions : pyval) : M W (list string) :=
  match permissions with
  | [] => ret []
  | p :: rest =>
      let* present := lift (py_contains granted_permissions p) in
      let* others := missing_from rest granted_permissions in
      ret (if present then others else p :: others)
  end.

Definition validate {W} (self : BaseValidator W) : M W ValidationResult :=
  if negb (truthy (v_vm_name self)) then
    ret (mkValidation name false "VM name required to check permissions"
           (Some [("error", PStr "vm_name not provided")]))
  else
    catch
      (let request_body := PDict [("permissions", strs INSTANCE_PERMISSIONS)] in
       let* result := request (v_compute self)
                        (instances_testIamPermissions (v_project self)
                           (v_zone self) (v_vm_name self) request_body) in
       let* granted_permissions := lift (py_get result "permissions" (PList [])) in
       let* missing_permissions :=
         missing_from INSTANCE_PERMISSIONS granted_permissions in
       match missing_permissions with
       | _ :: _ =>
           ret (mkValidation name false
                  ("Missing "
                     ++ str_of_Z (Z.of_nat (length missing_permissions))
                     ++ " required permission(s)")
                  (Some [("missing", strs missing_permissions);
                         ("granted", granted_permissions);
                         ("required_roles", required_roles);
                         ("fix", PStr ("Grant required permissions to your account for project "
                                         ++ v_project self));
                         ("note", PStr "Snapshot permissions also required (checked during execution)")]))
       | [] =>
           let* n := lift (py_len granted_permissions) in
           ret (mkValidation name true
                  ("Instance permissions OK (" ++ str_of_Z n ++ "/"
                     ++ str_of_Z (Z.of_nat (length INSTANCE_PERMISSIONS)) ++ ")")
                  (Some [("granted", granted_permissions);
                         ("instance_permissions", strs INSTANCE_PERMISSIONS);
                         ("disk_permissions_required", strs DISK_PERMISSIONS);
                         ("snapshot_permissions_required", strs SNAPSHOT_PERMISSIONS);
                         ("note", PStr "Disk and snapshot permissions will be validated during execution");
                         ("required_roles", required_roles)]))
       end)
      (fun e =>
         match e with
         | HttpError 404 _ =>
             ret (mkValidation name true "Skipped (VM validation will run next)"
                    (Some [("note", PStr "VM not found, will be caught by VM validator")]))
         | HttpError _ _ =>
             ret (mkValidation name false
                    ("Failed to check permissions: " ++ str_of_exn e)
                    (Some [("error", PStr (str_of_exn e))]))
         | _ =>
             ret (mkValidation name false
                    ("Unexpected error checking permissions: " ++ str_of_exn e)
                    (Some [("error", PStr (str_of_exn e))]))
         end).

Definition make {W} (self : BaseValidator W) : Validator W :=
  mkValidator name (validate self).

End IAMPermissionsValidator.

(** ** validators/vm_state.py *)

(** The handlers both state validators share. *)
Definition vm_lookup_failed (name vm_name zone project : string) (restore : bool)
    (e : exn) : ValidationResult :=
  match e with
  | HttpError 404 _ =>
      if restore then
        mkValidation name false ("VM '" ++ vm_name ++ "' not found")
          (Some [("error", PStr "VM not found")])
      else
        mkValidation name false
          ("VM '" ++ vm_name ++ "' not found in zone '" ++ zone ++ "'")
          (Some [("vm_name", PStr vm_name); ("zone", PStr zone);
                 ("project", PStr project);
                 ("fix", PStr ("gcloud compute instances list --zone=" ++ zone
                                 ++ " --project=" ++ project))])
  | HttpError _ _ =>
      mkValidation name false ("Failed to get VM info: " ++ str_of_exn e)
        (Some [("error", PStr (str_of_exn e))])
  | _ =>
      mkValidation name false
        ((if restore then "Unexpected error: "
          else "Unexpected error checking VM: ") ++ str_of_exn e)
        (Some [("error", PStr (str_of_exn e))])
  end.

(** [any(item.get('key') == 'rescue-mode' for item in metadata_items)]. *)
Fixpoint any_rescue_mode {W} (metadata_items : list pyval) : M W bool :=
  match metadata_items with
  | [] => ret false
  | item :: rest =>
      let* k := lift (py_get item "key" PNone) in
      if py_eq_str k "rescue-mode" then ret true else any_rescue_mode rest
  end.

Module VMStateValidator.

Definition name : string := "VM State".

Definition VALID_STATES : list string := ["RUNNING"; "TERMINATED"].

(** The loop that looks for the boot disk. *)
Fixpoint find_boot_disk {W} (disks : list pyval) : M W pyval :=
  match disks with
  | [] => ret PNone
  | disk :: rest =>
      let* b := lift (py_get disk "boot" PNone) in
      if truthy b then
        let* source := lift (py_item disk "source") in
        let* n := lift (py_split_last source) in
        ret (PStr n)
      else find_boot_disk rest
  end.

Definition validate {W} (self : BaseValidator W) : M W ValidationResult :=
  if negb (truthy (v_vm_name self)) then
    ret (mkValidation name false "VM name required"
           (Some [("error", PStr "vm_name not provided")]))
  else
    catch
      (let* vm := request (v_compute self)
                    (instances_get (v_project self) (v_zone self)
                       (v_vm_name self)) in
       let* current_state := lift (py_item vm "status") in
       let* metadata := lift (py_get vm "metadata" (PDict [])) in
       let* metadata_items_v := lift (py_get metadata "items" (PList [])) in
       let* metadata_items := lift (py_iter metadata_items_v) in
       let* in_rescue_mode := any_rescue_mode metadata_items in
       if in_rescue_mode then
         ret (mkValidation name false "VM is already in rescue mode"
                (Some [("current_state", current_state);
                       ("fix", PStr "Use 'restore' command to exit rescue mode first")]))
       else if negb (existsb (py_eq_str current_state) VALID_STATES) then
         ret (mkValidation name false
                ("VM is in invalid state: " ++ py_str current_state)
                (Some [("current_state", current_state);
                       ("valid_states", PList (List.map PStr VALID_STATES));
                       ("fix", PStr "Wait for VM to reach RUNNING or TERMINATED state")]))
       else
         let* disks_v := lift (py_get vm "disks" (PList [])) in
         let* disks := lift (py_iter disks_v) in
         let* boot_disk := find_boot_disk disks in
         if negb (truthy boot_disk) then
           ret (mkValidation name false "VM has no boot disk"
                  (Some [("error", PStr "No boot disk found")]))
         else
           ret (mkValidation name true
                  ("VM exists and is " ++ py_str current_state)
                  (Some [("vm_name", v_vm_name self);
                         ("current_state", current_state);
                         ("boot_disk", boot_disk);
                         ("zone", PStr (v_zone self));
                         ("project", PStr (v_project self))])))
      (fun e =>
         ret (vm_lookup_failed name (py_str (v_vm_name self)) (v_zone self)
                (v_project self) false e)).

Definition make {W} (self : BaseValidator W) : Validator W :=
  mkValidator name (validate self).

End VMStateValidator.

Module VMRestoreStateValidator.

Definition name : string := "VM Restore State".

(** The loop over the disks; the pair is [(rescue_disk, original_disk)]. *)
Fixpoint classify {W} (disks : list pyval) (found : pyval * pyval)
    : M W (pyval * pyval) :=
  match disks with
  | [] => ret found
  | disk :: rest =>
      let* source := lift (py_item disk "source") in
      let* disk_name := lift (py_split_last source) in
      if str_contains "rescue-disk" disk_name then
        classify rest (PStr disk_name, snd found)
      else
        let* b := lift (py_get disk "boot" PNone) in
        if negb (truthy b) then classify rest (fst found, PStr disk_name)
        else classify rest found
  end.

Definition validate {W} (self : BaseValidator W) : M W ValidationResult :=
  if negb (truthy (v_vm_name self)) then
    ret (mkValidation name false "VM name required"
           (Some [("error", PStr "vm_name not provided")]))
  else
    catch
      (let* vm := request (v_compute self)
                    (instances_get (v_project self) (v_zone self)
                       (v_vm_name self)) in
       let* metadata := lift (py_get vm "metadata" (PDict [])) in
       let* metadata_items_v := lift (py_get metadata "items" (PList [])) in
       let* metadata_items := lift (py_iter metadata_items_v) in
       let* in_rescue_mode := any_rescue_mode metadata_items in
       if negb in_rescue_mode then
         ret (mkValidation name false "VM is not in rescue mode"
                (Some [("fix", PStr "Use 'rescue' command first to enter rescue mode")]))
       else
         let* disks_v := lift (py_get vm "disks" (PList [])) in
         let* disks := lift (py_iter disks_v) in
         let* found := classify disks (PNone, PNone) in
         let '(rescue_disk, original_disk) := found in
         if negb (truthy rescue_disk) then
           ret (mkValidation name false "Rescue disk not found"
                  (Some [("error", PStr "Cannot find rescue disk")]))
         else if negb (truthy original_disk) then
           ret (mkValidation name false "Original disk not found"
                  (Some [("error", PStr "Cannot find original disk")]))
         else
           ret (mkValidation name true
                  "VM is in rescue mode and ready for restore"
                  (Some [("rescue_disk", rescue_disk);
                         ("original_disk", original_disk)])))
      (fun e =>
         ret (vm_lookup_failed name (py_str (v_vm_name self)) (v_zone self)
                (v_project self) true e)).

Definition make {W} (self : BaseValidator W) : Validator W :=
  mkValidator name (validate self).

End VMRestoreStateValidator.

(** ** Methods of an object with mutable fields

    An orchestrator method reads and assigns the fields of [self] while
    it talks to the remote side.  The fields outlive an exception, so
    they are threaded next to the state rather than inside the result. *)

Definition OM (S W A : Type) : Type :=
  S -> State W -> outcome A * S * State W.

Definition retO {S W A} (a : A) : OM S W A := fun self s => (Ok a, self, s).

Definition bindO {S W A B} (m : OM S W A) (k : A -> OM S W B) : OM S W B :=
  fun self s =>
    match m self s with
    | (Ok a, self', s') => k a self' s'
    | (Raise e, self', s') => (Raise e, self', s')
    | (Hang, self', s') => (Hang, self', s')
    end.

Definition catchO {S W A} (m : OM S W A) (h : exn -> OM S W A) : OM S W A :=
  fun self s =>
    match m self s with
    | (Raise e, self', s') => h e self' s'
    | r => r
    end.

(** A computation that does not touch the fields. *)
Definition liftO {S W A} (m : M W A) : OM S W A :=
  fun self s => let '(r, s') := m s in (r, self, s').

(** Running a method on a fresh object and dropping the object. *)
Definition with_object {S W A} (self : S) (m : OM S W A) : M W A :=
  fun s => let '(r, _, s') := m self s in (r, s').

Definition getO {S W} : OM S W S := fun self s => (Ok self, self, s).

Definition assign {S W} (f : S -> S) : OM S W unit :=
  fun self s => (Ok tt, f self, s).

Notation "'do*' x ':=' c1 'in' c2" := (bindO c1 (fun x => c2))
  (at level 10, x pattern, c1 at level 100, c2 at level 200).

(** ** core/config.py *)

Record RescueConfig : Type := mkRescueConfig {
  rescue_disk_size_gb : Z;
  rescue_disk_type : string;
  rescue_image_family : string;
  rescue_image_project : string;
  create_snapshot : bool;
  require_snapshot : bool;
  snapshot_timeout : Z;
  vm_stop_timeout : Z;
  vm_start_timeout : Z;
  disk_create_timeout : Z
}.

Definition DEFAULT_RESCUE_CONFIG : RescueConfig :=
  mkRescueConfig 10 "pd-standard" "debian-11" "debian-cloud"
    true false 600 300 300 300.

Record RestoreConfig : Type := mkRestoreConfig {
  delete_rescue_disk : bool;
  restore_vm_stop_timeout : Z;
  restore_vm_start_timeout : Z
}.

Definition DEFAULT_RESTORE_CONFIG : RestoreConfig :=
  mkRestoreConfig true 300 300.

(** ** orchestration/rescue.py *)

Module RescueOrchestrator.

Record t (W : Type) : Type := mk {
  compute_of : Compute W;
  project_of : string;
  zone_of : string;
  vm_name : string;
  config : RescueConfig;
  (* the template the startup script is generated from, as a function
     of the original disk name *)
  startup_script : pyval -> string;
  state_tracker : StateTracker.t;
  operations_map : gmap string (Operation W);
  original_disk_name : pyval;
  original_device_name : pyval
}.
Arguments mk {W}.
Arguments compute_of {W}.
Arguments project_of {W}.
Arguments zone_of {W}.
Arguments vm_name {W}.
Arguments config {W}.
Arguments startup_script {W}.
Arguments state_tracker {W}.
Arguments operations_map {W}.
Arguments original_disk_name {W}.
Arguments original_device_name {W}.

(** [__init__]; [now] is the clock reading the tracker starts with. *)
Definition init {W} (compute : Compute W) (project zone vm_name : string)
    (config : RescueConfig) (startup_script : pyval -> string) (now : Z)
    : t W :=
  mk compute project zone vm_name config startup_script
     (StateTracker.init now) ∅ PNone PNone.

Definition set_tracker {W} (tr : StateTracker.t) (self : t W) : t W :=
  mk (compute_of self) (project_of self) (zone_of self) (vm_name self)
     (config self) (startup_script self) tr (operations_map self)
     (original_disk_name self) (original_device_name self).

Definition set_operations_map {W} (m : gmap string (Operation W))
    (self : t W) : t W :=
  mk (compute_of self) (project_of self) (zone_of self) (vm_name self)
     (config self) (startup_script self) (state_tracker self) m
     (original_disk_name self) (original_device_name self).

Definition set_original_disk_name {W} (v : pyval) (self : t W) : t W :=
  mk (compute_of self) (project_of self) (zone_of self) (vm_name self)
     (config self) (startup_script self) (state_tracker self)
     (operations_map self) v (original_device_name self).

Definition set_original_device_name {W} (v : pyval) (self : t W) : t W :=
  mk (compute_of self) (project_of self) (zone_of self) (vm_name self)
     (config self) (startup_script self) (state_tracker self)
     (operations_map self) (original_disk_name self) v.

Definition validators {W} (self : t W) : list (Validator W) :=
  [CredentialsValidator.make
     (mkValidatorSelf (compute_of self) (project_of self) (zone_of self) PNone);
   IAMPermissionsValidator.make
     (mkValidatorSelf (compute_of self) (project_of self) (zone_of self)
        (PStr (vm_name self)));
   VMStateValidator.make
     (mkValidatorSelf (compute_of self) (project_of self) (zone_of self)
        (PStr (vm_name self)))].

Definition validate {W} : OM (t W) W bool :=
  do* self := getO in
  do* results := liftO (ValidationRunner.run_all (validators self)) in
  if negb (ValidationResults.all_passed results) then retO false
  else retO true.

(** The [for disk in vm.get('disks', [])] loop of
    [_get_original_disk_info]. *)
Fixpoint scan_boot_disk {W} (disks : list pyval) : OM (t W) W unit :=
  match disks with
  | [] => retO tt
  | disk :: rest =>
      do* b := liftO (lift (py_get disk "boot" PNone)) in
      if truthy b then
        do* source := liftO (lift (py_item disk "source")) in
        do* n := liftO (lift (py_split_last source)) in
        do* _ := assign (set_original_disk_name (PStr n)) in
        do* dn := liftO (lift (py_item disk "deviceName")) in
        assign (set_original_device_name dn)
      else scan_boot_disk rest
  end.

Definition _get_original_disk_info {W} : OM (t W) W unit :=
  do* self := getO in
  do* vm := liftO (request (compute_of self)
                     (instances_get (project_of self) (zone_of self)
                        (PStr (vm_name self)))) in
  do* disks_v := liftO (lift (py_get vm "disks" (PList []))) in
  do* disks := liftO (lift (py_iter disks_v)) in
  scan_boot_disk disks.

Definition _generate_startup_script {W} : OM (t W) W string :=
  do* self := getO in
  retO (startup_script self (original_disk_name self)).

Definition rollback {W} : OM (t W) W bool :=
  do* self := getO in
  liftO (RollbackHandler.rollback (state_tracker self) (operations_map self)).

Definition _rollback {W} : OM (t W) W unit :=
  do* _ := rollback in retO tt.

(** [self.state_tracker.add_operation(name, result.success,
    result.message, result.rollback_data)]. *)
Definition track {W} (name : string) (result : OperationResult)
    : OM (t W) W unit :=
  do* timestamp := liftO time_time in
  assign (fun self =>
            set_tracker
              (StateTracker.add_operation (state_tracker self) name
                 (success result) (message result) (rollback_data result)
                 timestamp) self).

(** The pattern every numbered step repeats: execute, track, and on
    failure roll back and return [False]; otherwise go on with [next]. *)
Definition step {W} (name : string) (execute : M W OperationResult)
    (next : OM (t W) W bool) : OM (t W) W bool :=
  do* result := liftO execute in
  do* _ := track name result in
  if negb (success result) then
    do* _ := _rollback in retO false
  else next.

Definition execute {W} : OM (t W) W bool :=
  catchO
    (do* now := liftO time_time in
     let rescue_disk_name := PStr ("rescue-disk-" ++ str_of_Z now) in
     do* _ := _get_original_disk_info in
     do* self := getO in
     let op := mkOperation (compute_of self) (project_of self) (zone_of self) in
     let cfg := config self in
     do* _ := assign (set_operations_map
       (<["Create Snapshot" := mkOp CreateSnapshot op]>
        (<["Stop VM" := mkOp StopVM op]>
        (<["Create Rescue Disk" := mkOp CreateDisk op]>
        (<["Detach Boot Disk" := mkOp DetachDisk op]>
        (<["Attach Rescue Disk" := mkOp AttachDisk op]>
        (<["Set Metadata" := mkOp SetMetadata op]>
        (<["Start VM" := mkOp StartVM op]>
        (<["Attach Original Disk" := mkOp AttachDisk op]> ∅))))))))) in
     let steps :=
       step "Stop VM"
         (StopVMOperation.execute op (vm_name self) (vm_stop_timeout cfg))
       (step "Create Rescue Disk"
         (CreateDiskOperation.execute op rescue_disk_name
            (rescue_disk_size_gb cfg) (rescue_disk_type cfg)
            ("projects/" ++ rescue_image_project cfg
               ++ "/global/images/family/" ++ rescue_image_family cfg)
            (disk_create_timeout cfg))
       (do* self := getO in
        step "Detach Boot Disk"
         (DetachDiskOperation.execute op (vm_name self)
            (original_device_name self))
       (step "Attach Rescue Disk"
         (AttachDiskOperation.execute op (vm_name self) rescue_disk_name
            true false false)
       (do* startup_script := _generate_startup_script in
        do* now' := liftO time_time in
        do* self := getO in
        let metadata_items :=
          [PDict [("key", PStr "startup-script"); ("value", PStr startup_script)];
           PDict [("key", PStr "rescue-mode"); ("value", PStr (str_of_Z now'))];
           PDict [("key", PStr "rescue-original-disk");
                  ("value", original_disk_name self)]] in
        step "Set Metadata"
         (SetMetadataOperation.execute op (vm_name self) metadata_items)
       (step "Start VM"
         (StartVMOperation.execute op (vm_name self) (vm_start_timeout cfg))
       (do* _ := liftO (time_sleep 10) in
        do* self := getO in
        step "Attach Original Disk"
         (AttachDiskOperation.execute op (vm_name self)
            (original_disk_name self) false false false)
       (retO true))))))) in
     if create_snapshot cfg then
       do* self := getO in
       do* result := liftO
         (CreateSnapshotOperation.execute op (original_disk_name self) PNone
            (PStr ("Pre-rescue safety snapshot of " ++ vm_name self))
            (snapshot_timeout cfg)) in
       do* _ := track "Create Snapshot" result in
       if negb (success result) then
         if require_snapshot cfg then retO false
         else steps
       else
         do* _ := (match rollback_data result with
                   | Some _ => retO tt
                   | None => liftO (raise (AttributeError
                               "'NoneType' object has no attribute 'get'"))
                   end) in
         steps
     else steps)
    (fun e => do* _ := _rollback in retO false).

End RescueOrchestrator.

(** ** orchestration/restore.py *)

Module RestoreOrchestrator.

Record t (W : Type) : Type := mk {
  compute_of : Compute W;
  project_of : string;
  zone_of : string;
  vm_name : string;
  config : RestoreConfig;
  state_tracker : StateTracker.t;
  operations_map : gmap string (Operation W);
  rescue_disk_name : pyval;
  rescue_device_name : pyval;
  original_disk_name : pyval;
  original_device_name : pyval
}.
Arguments mk {W}.
Arguments compute_of {W}.
Arguments project_of {W}.
Arguments zone_of {W}.
Arguments vm_name {W}.
Arguments config {W}.
Arguments state_tracker {W}.
Arguments operations_map {W}.
Arguments rescue_disk_name {W}.
Arguments rescue_device_name {W}.
Arguments original_disk_name {W}.
Arguments original_device_name {W}.

Definition init {W} (compute : Compute W) (project zone vm_name : string)
    (config : RestoreConfig) (now : Z) : t W :=
  mk compute project zone vm_name config (StateTracker.init now) ∅
     PNone PNone PNone PNone.

Definition set_tracker {W} (tr : StateTracker.t) (self : t W) : t W :=
  mk (compute_of self) (project_of self) (zone_of self) (vm_name self)
     (config self) tr (operations_map self)
     (rescue_disk_name self) (rescue_device_name self)
     (original_disk_name self) (original_device_name self).

Definition set_operations_map {W} (m : gmap string (Operation W))
    (self : t W) : t W :=
  mk (compute_of self) (project_of self) (zone_of self) (vm_name self)
     (config self) (state_tracker self) m
     (rescue_disk_name self) (rescue_device_name self)
     (original_disk_name self) (original_device_name self).

Definition set_rescue_disk {W} (n d : pyval) (self : t W) : t W :=
  mk (compute_of self) (project_of self) (zone_of self) (vm_name self)
     (config self) (state_tracker self) (operations_map self)
     n d (original_disk_name self) (original_device_name self).

Definition set_original_disk_name {W} (v : pyval) (self : t W) : t W :=
  mk (compute_of self) (project_of self) (zone_of self) (vm_name self)
     (config self) (state_tracker self) (operations_map self)
     (rescue_disk_name self) (rescue_device_name self)
     v (original_device_name self).

Definition set_original_device_name {W} (v : pyval) (self : t W) : t W :=
  mk (compute_of self) (project_of self) (zone_of self) (vm_name self)
     (config self) (state_tracker self) (operations_map self)
     (rescue_disk_name self) (rescue_device_name self)
     (original_disk_name self) v.

Definition validators {W} (self : t W) : list (Validator W) :=
  [CredentialsValidator.make
     (mkValidatorSelf (compute_of self) (project_of self) (zone_of self) PNone);
   IAMPermissionsValidator.make
     (mkValidatorSelf (compute_of self) (project_of self) (zone_of self)
        (PStr (vm_name self)));
   VMRestoreStateValidator.make
     (mkValidatorSelf (compute_of self) (project_of self) (zone_of self)
        (PStr (vm_name self)))].

Definition validate {W} : OM (t W) W bool :=
  do* self := getO in
  do* results := liftO (ValidationRunner.run_all (validators self)) in
  if negb (ValidationResults.all_passed results) then retO false
  else retO true.

(** First loop of [_get_disk_info]: the original disk named in the
    metadata. *)
Fixpoint scan_metadata {W} (items : list pyval) : OM (t W) W unit :=
  match items with
  | [] => retO tt
  | item :: rest =>
      do* k := liftO (lift (py_item item "key")) in
      if py_eq_str k "rescue-original-disk" then
        do* v := liftO (lift (py_item item "value")) in
        assign (set_original_disk_name v)
      else scan_metadata rest
  end.

(** Second loop of [_get_disk_info]: the rescue disk and the device of
    the original disk. *)
Fixpoint scan_disks {W} (disks : list pyval) : OM (t W) W unit :=
  match disks with
  | [] => retO tt
  | disk :: rest =>
      do* source := liftO (lift (py_item disk "source")) in
      do* disk_name := liftO (lift (py_split_last source)) in
      do* device_name := liftO (lift (py_item disk "deviceName")) in
      do* self := getO in
      do* _ :=
        (if str_contains "rescue-disk" disk_name then
           assign (set_rescue_disk (PStr disk_name) device_name)
         else if py_eqb (PStr disk_name) (original_disk_name self) then
           assign (set_original_device_name device_name)
         else retO tt) in
      scan_disks rest
  end.

Definition _get_disk_info {W} : OM (t W) W unit :=
  do* self := getO in
  do* vm := liftO (request (compute_of self)
                     (instances_get (project_of self) (zone_of self)
                        (PStr (vm_name self)))) in
  do* metadata := liftO (lift (py_get vm "metadata" (PDict []))) in
  do* items_v := liftO (lift (py_get metadata "items" (PList []))) in
  do* items := liftO (lift (py_iter items_v)) in
  do* _ := scan_metadata items in
  do* disks_v := liftO (lift (py_get vm "disks" (PList []))) in
  do* disks := liftO (lift (py_iter disks_v)) in
  scan_disks disks.

Definition RESCUE_KEYS : list string :=
  ["rescue-mode"; "startup-script"; "rescue-original-disk"].

(** The comprehension of [_get_clean_metadata]. *)
Fixpoint clean_items {W} (items : list pyval) : M W (list pyval) :=
  match items with
  | [] => ret []
  | item :: rest =>
      let* k := lift (py_item item "key") in
      let* others := clean_items rest in
      ret (if existsb (py_eq_str k) RESCUE_KEYS then others
           else item :: others)
  end.

Definition _get_clean_metadata {W} : OM (t W) W (list pyval) :=
  do* self := getO in
  do* vm := liftO (request (compute_of self)
                     (instances_get (project_of self) (zone_of self)
                        (PStr (vm_name self)))) in
  do* metadata := liftO (lift (py_get vm "metadata" (PDict []))) in
  do* items_v := liftO (lift (py_get metadata "items" (PList []))) in
  do* items := liftO (lift (py_iter items_v)) in
  liftO (clean_items items).

Definition rollback {W} : OM (t W) W bool :=
  do* self := getO in
  liftO (RollbackHandler.rollback (state_tracker self) (operations_map self)).

Definition _rollback {W} : OM (t W) W unit :=
  do* _ := rollback in retO tt.

Definition track {W} (name : string) (result : OperationResult)
    : OM (t W) W unit :=
  do* timestamp := liftO time_time in
  assign (fun self =>
            set_tracker
              (StateTracker.add_operation (state_tracker self) name
                 (success result) (message result) (rollback_data result)
                 timestamp) self).

(** The pattern every numbered step repeats. *)
Definition step {W} (name : string) (execute : M W OperationResult)
    (next : OM (t W) W bool) : OM (t W) W bool :=
  do* result := liftO execute in
  do* _ := track name result in
  if negb (success result) then
    do* _ := _rollback in retO false
  else next.

Definition execute {W} : OM (t W) W bool :=
  catchO
    (do* _ := _get_disk_info in
     do* self := getO in
     let op := mkOperation (compute_of self) (project_of self) (zone_of self) in
     let cfg := config self in
     do* _ := assign (set_operations_map
       (<["Stop VM" := mkOp StopVM op]>
        (<["Detach Rescue Disk" := mkOp DetachDisk op]>
        (<["Detach Original Disk" := mkOp DetachDisk op]>
        (<["Attach Original Disk" := mkOp AttachDisk op]>
        (<["Set Metadata" := mkOp SetMetadata op]>
        (<["Start VM" := mkOp StartVM op]> ∅))))))) in
     step "Stop VM"
       (StopVMOperation.execute op (vm_name self) (restore_vm_stop_timeout cfg))
     (step "Detach Rescue Disk"
       (DetachDiskOperation.execute op (vm_name self) (rescue_device_name self))
     (step "Detach Original Disk"
       (DetachDiskOperation.execute op (vm_name self) (original_device_name self))
     (step "Attach Original Disk"
       (AttachDiskOperation.execute op (vm_name self) (original_disk_name self)
          true false false)
     (do* clean_metadata := _get_clean_metadata in
      step "Set Metadata"
       (SetMetadataOperation.execute op (vm_name self) clean_metadata)
     (step "Start VM"
       (StartVMOperation.execute op (vm_name self) (restore_vm_start_timeout cfg))
     (if delete_rescue_disk cfg then
        do* result := liftO
          (DeleteDiskOperation.execute op (rescue_disk_name self)) in
        retO true
      else retO true)))))))
    (fun e => do* _ := _rollback in retO false).

End RestoreOrchestrator.

(** ** core/auth.py and main.py *)

Module AuthManager.

Definition get_credentials {W} (compute : Compute W) : M W (pyval * pyval) :=
  catch
    (let* found := request compute auth_default in
     let* credentials := lift (py_item found "credentials") in
     let* project := lift (py_item found "project") in
     let* valid := lift (py_item credentials "valid") in
     let* _ :=
       (if negb (truthy valid) then
          let* expired := lift (py_item credentials "expired") in
          let* refresh_token := lift (py_item credentials "refresh_token") in
          if truthy expired && truthy refresh_token then
            catch
              (let* _ := request compute credentials_refresh in ret tt)
              (fun e => raise (AuthenticationError
                                 "Credentials expired and refresh failed"))
          else raise (AuthenticationError "Credentials are invalid")
        else ret tt) in
     ret (credentials, project))
    (fun e =>
       match e with
       | DefaultCredentialsError _ =>
           raise (AuthenticationError
                    "No credentials found. You need to authenticate first.")
       | _ => raise e
       end).

(** [get_client]: the project to work in.  The client itself is the
    [compute] the caller already holds. *)
Definition get_client {W} (compute : Compute W) (project : pyval)
    : M W pyval :=
  let* found := get_credentials compute in
  let default_project := snd found in
  ret (if truthy project then project else default_project).

End AuthManager.

Module Main.

Definition rescue_vm {W} (compute : Compute W) (vm_name zone : string)
    (project : pyval) (config : RescueConfig)
    (startup_script : pyval -> string) : M W bool :=
  catch
    (let* project := AuthManager.get_client compute project in
     let* now := time_time in
     with_object
       (RescueOrchestrator.init compute (py_str project) zone vm_name config
          startup_script now)
       (do* valid := RescueOrchestrator.validate in
        if negb valid then retO false
        else
          do* done := RescueOrchestrator.execute in
          if negb done then retO false else retO true))
    (fun e => ret false).

Definition restore_vm {W} (compute : Compute W) (vm_name zone : string)
    (project : pyval) (config : RestoreConfig) : M W bool :=
  catch
    (let* project := AuthManager.get_client compute project in
     let* now := time_time in
     with_object
       (RestoreOrchestrator.init compute (py_str project) zone vm_name config
          now)
       (do* valid := RestoreOrchestrator.validate in
        if negb valid then retO false
        else
          do* done := RestoreOrchestrator.execute in
          if negb done then retO false else retO true))
    (fun e => ret false).

End Main.

(** ** Vocabulary for the theorems *)

(** The calls of [rollback] recorded in a log, oldest first. *)
Fixpoint compensations (l : list Event) : list (string * dict) :=
  match l with
  | [] => []
  | Compensate n d :: l' => (n, d) :: compensations l'
  | Request _ :: l' => compensations l'
  end.

(** The requests recorded in a log, oldest first. *)
Fixpoint requests (l : list Event) : list ApiCall :=
  match l with
  | [] => []
  | Request c :: l' => c :: requests l'
  | Compensate _ _ :: l' => requests l'
  end.

Definition returned {A} (o : outcome A) : Prop :=
  match o with
  | Hang => False
  | _ => True
  end.

(** A computation is tame at a state when it comes back (with a value or
    an exception), does not turn the clock back, and only appends to the
    log, no call of [rollback] among what it appends. *)
Definition tame_at {W A} (m : M W A) (s : State W) : Prop :=
  returned (fst (m s)) /\
  now s <= now (snd (m s)) /\
  exists l, log (snd (m s)) = (log s ++ l)%list /\ compensations l = [].

Definition tame {W A} (m : M W A) : Prop := forall s, tame_at m s.

(** A computation that always comes back with a value. *)
Definition total {W A} (m : M W A) : Prop :=
  forall s, exists a, fst (m s) = Ok a.

(** A tracked step the rollback handler hands to an operation: its
    operation is registered and its rollback data is not empty. *)
Definition compensable {W} (operations_map : gmap string (Operation W))
    (op_state : OperationState) : bool :=
  match operations_map !! st_operation_name op_state with
  | Some _ => truthy_data (st_rollback_data op_state)
  | None => false
  end.

(** The entry a compensated step leaves in the log. *)
Definition compensation_of (op_state : OperationState) : string * dict :=
  (st_operation_name op_state,
   match st_rollback_data op_state with Some d => d | None => [] end).

(** ** A model of the remote side

    One project and zone holding one instance, the zone's disks and the
    project's snapshots.  Requests take effect at once.  [setMetadata]
    replaces the item list and demands the current fingerprint;
    [attachDisk] and [detachDisk] add and remove an attachment by device
    name; [testIamPermissions] answers with the requested permissions the
    caller holds. *)

Module Cloud.

Record AttachedDisk : Type := mkDisk {
  source : string;
  boot : bool;
  autoDelete : bool;
  deviceName : string;
  mode : string
}.

Record t : Type := mk {
  instance : string;
  status : string;
  disks : list AttachedDisk;
  fingerprint : string;
  items : list (string * string);
  disk_table : list string;
  snapshots : list string;
  granted : list string;
  credentials : option pyval
}.

Definition disk_to_py (d : AttachedDisk) : pyval :=
  PDict [("source", PStr (source d));
         ("boot", PBool (boot d));
         ("autoDelete", PBool (autoDelete d));
         ("deviceName", PStr (deviceName d));
         ("mode", PStr (mode d))].

Definition item_to_py (kv : string * string) : pyval :=
  PDict [("key", PStr (fst kv)); ("value", PStr (snd kv))].

Definition vm_to_py (w : t) : pyval :=
  PDict [("name", PStr (instance w));
         ("status", PStr (status w));
         ("disks", PList (List.map disk_to_py (disks w)));
         ("metadata",
          PDict [("fingerprint", PStr (fingerprint w));
                 ("items", PList (List.map item_to_py (items w)))])].

Definition parse_disk (body : pyval) : option AttachedDisk :=
  match py_item body "source", py_get body "boot" (PBool false),
        py_get body "autoDelete" (PBool false), py_item body "deviceName",
        py_get body "mode" (PStr "READ_WRITE") with
  | Ok (PStr src), Ok (PBool b), Ok (PBool ad), Ok (PStr dn), Ok (PStr m) =>
      Some (mkDisk src b ad dn m)
  | _, _, _, _, _ => None
  end.

Definition parse_item (v : pyval) : option (string * string) :=
  match py_item v "key", py_item v "value" with
  | Ok (PStr k), Ok (PStr x) => Some (k, x)
  | _, _ => None
  end.

Fixpoint parse_items (l : list pyval) : option (list (string * string)) :=
  match l with
  | [] => Some []
  | v :: l' =>
      match parse_item v, parse_items l' with
      | Some kv, Some kvs => Some (kv :: kvs)
      | _, _ => None
      end
  end.

Definition mem (x : string) (l : list string) : bool :=
  existsb (String.eqb x) l.

Definition remove (x : string) (l : list string) : list string :=
  List.filter (fun y => negb (String.eqb x y)) l.

Definition has_device (dn : string) (ds : list AttachedDisk) : bool :=
  existsb (fun d => String.eqb (deviceName d) dn) ds.

Definition is_attached (disk : string) (ds : list AttachedDisk) : bool :=
  existsb (fun d => String.eqb (last_segment (source d)) disk) ds.

Definition set_status (st : string) (w : t) : t :=
  mk (instance w) st (disks w) (fingerprint w) (items w)
     (disk_table w) (snapshots w) (granted w) (credentials w).

Definition set_disks (ds : list AttachedDisk) (w : t) : t :=
  mk (instance w) (status w) ds (fingerprint w) (items w)
     (disk_table w) (snapshots w) (granted w) (credentials w).

Definition set_items (its : list (string * string)) (w : t) : t :=
  mk (instance w) (status w) (disks w) (fingerprint w ++ "'") its
     (disk_table w) (snapshots w) (granted w) (credentials w).

Definition set_disk_table (tb : list string) (w : t) : t :=
  mk (instance w) (status w) (disks w) (fingerprint w) (items w)
     tb (snapshots w) (granted w) (credentials w).

Definition set_snapshots (sn : list string) (w : t) : t :=
  mk (instance w) (status w) (disks w) (fingerprint w) (items w)
     (disk_table w) sn (granted w) (credentials w).

Definition not_found : reply := Fault (HttpError 404 "notFound").
Definition bad_request : reply := Fault (HttpError 400 "invalid").
Definition done : reply := Reply (PDict [("status", PStr "DONE")]).

Definition handle : Compute t := fun call w =>
  match call with
  | instances_get _ _ inst =>
      if py_eq_str inst (instance w) then (Reply (vm_to_py w), w, 0%nat)
      else (not_found, w, 0%nat)
  | instances_stop _ _ inst =>
      if py_eq_str inst (instance w)
      then (done, set_status "TERMINATED" w, 0%nat)
      else (not_found, w, 0%nat)
  | instances_start _ _ inst =>
      if py_eq_str inst (instance w)
      then (done, set_status "RUNNING" w, 0%nat)
      else (not_found, w, 0%nat)
  | instances_attachDisk _ _ inst body =>
      if py_eq_str inst (instance w) then
        match parse_disk body with
        | Some d =>
            if has_device (deviceName d) (disks w)
               || negb (mem (last_segment (source d)) (disk_table w))
               || is_attached (last_segment (source d)) (disks w)
            then (bad_request, w, 0%nat)
            else (done, set_disks (disks w ++ [d]) w, 0%nat)
        | None => (bad_request, w, 0%nat)
        end
      else (not_found, w, 0%nat)
  | instances_detachDisk _ _ inst dn =>
      if py_eq_str inst (instance w) then
        match dn with
        | PStr dn =>
            if has_device dn (disks w)
            then (done,
                  set_disks
                    (List.filter (fun d => negb (String.eqb (deviceName d) dn))
                       (disks w)) w,
                  0%nat)
            else (bad_request, w, 0%nat)
        | _ => (bad_request, w, 0%nat)
        end
      else (not_found, w, 0%nat)
  | instances_setMetadata _ _ inst body =>
      if py_eq_str inst (instance w) then
        match py_get body "fingerprint" PNone, py_get body "items" (PList []) with
        | Ok fp, Ok (PList its) =>
            if py_eq_str fp (fingerprint w) then
              match parse_items its with
              | Some kvs => (done, set_items kvs w, 0%nat)
              | None => (bad_request, w, 0%nat)
              end
            else (Fault (HttpError 412 "conditionNotMet"), w, 0%nat)
        | _, _ => (bad_request, w, 0%nat)
        end
      else (not_found, w, 0%nat)
  | instances_testIamPermissions _ _ res body =>
      if py_eq_str res (instance w) then
        match py_get body "permissions" (PList []) with
        | Ok (PList ps) =>
            (Reply (PDict
               [("permissions",
                 PList (List.filter
                          (fun p => existsb (py_eq_str p) (granted w)) ps))]),
             w, 0%nat)
        | _ => (bad_request, w, 0%nat)
        end
      else (not_found, w, 0%nat)
  | disks_insert _ _ body =>
      match py_item body "name" with
      | Ok (PStr n) =>
          if mem n (disk_table w)
          then (Fault (HttpError 409 "alreadyExists"), w, 0%nat)
          else (done, set_disk_table (disk_table w ++ [n]) w, 0%nat)
      | _ => (bad_request, w, 0%nat)
      end
  | disks_get _ _ disk =>
      match disk with
      | PStr n =>
          if mem n (disk_table w)
          then (Reply (PDict [("name", PStr n); ("status", PStr "READY")]),
                w, 0%nat)
          else (not_found, w, 0%nat)
      | _ => (bad_request, w, 0%nat)
      end
  | disks_delete _ _ disk =>
      match disk with
      | PStr n =>
          if mem n (disk_table w) then
            if is_attached n (disks w)
            then (Fault (HttpError 400 "resourceInUseByAnotherResource"),
                  w, 0%nat)
            else (done, set_disk_table (remove n (disk_table w)) w, 0%nat)
          else (not_found, w, 0%nat)
      | _ => (bad_request, w, 0%nat)
      end
  | disks_createSnapshot _ _ disk body =>
      match disk, py_item body "name" with
      | PStr d, Ok (PStr n) =>
          if mem d (disk_table w) then
            if mem n (snapshots w)
            then (Fault (HttpError 409 "alreadyExists"), w, 0%nat)
            else (done, set_snapshots (snapshots w ++ [n]) w, 0%nat)
          else (not_found, w, 0%nat)
      | _, _ => (bad_request, w, 0%nat)
      end
  | snapshots_get _ snap =>
      match snap with
      | PStr n =>
          if mem n (snapshots w)
          then (Reply (PDict [("name", PStr n); ("status", PStr "READY")]),
                w, 0%nat)
          else (not_found, w, 0%nat)
      | _ => (bad_request, w, 0%nat)
      end
  | snapshots_delete _ snap =>
      match snap with
      | PStr n =>
          if mem n (snapshots w)
          then (done, set_snapshots (remove n (snapshots w)) w, 0%nat)
          else (not_found, w, 0%nat)
      | _ => (bad_request, w, 0%nat)
      end
  | auth_default =>
      match credentials w with
      | Some c => (Reply c, w, 0%nat)
      | None =>
          (Fault (DefaultCredentialsError "Could not automatically determine credentials"),
           w, 0%nat)
      end
  | credentials_refresh =>
      (Fault (OtherError "refresh failed"), w, 0%nat)
  end.

Definition initial (w : t) : State t := mkState [] 0 w.

End Cloud.

(** ** A sample project

    An instance [web-1] that boots from [web-1-boot], carries a data
    disk and two metadata items of its owner, and a caller who holds the
    six instance permissions. *)

Module Sample.

Definition boot_disk : Cloud.AttachedDisk :=
  Cloud.mkDisk "https://www.googleapis.com/compute/v1/projects/p1/zones/z1/disks/web-1-boot"
    true true "persistent-disk-0" "READ_WRITE".

Definition data_disk : Cloud.AttachedDisk :=
  Cloud.mkDisk "https://www.googleapis.com/compute/v1/projects/p1/zones/z1/disks/web-1-data"
    false false "data" "READ_WRITE".

Definition user_credentials : pyval :=
  PDict [("credentials",
          PDict [("valid", PBool true); ("expired", PBool false);
                 ("refresh_token", PStr "1//refresh");
                 ("type", PStr "Credentials")]);
         ("project", PStr "p1")].

Definition instance_permissions : list string :=
  ["compute.instances.get";
   "compute.instances.stop";
   "compute.instances.start";
   "compute.instances.attachDisk";
   "compute.instances.detachDisk";
   "compute.instances.setMetadata"].

Definition cloud : Cloud.t :=
  Cloud.mk "web-1" "RUNNING" [boot_disk; data_disk] "fp0"
    [("ssh-keys", "alice:ssh-ed25519 AAAA"); ("enable-oslogin", "TRUE")]
    ["web-1-boot"; "web-1-data"] [] instance_permissions
    (Some user_credentials).

Definition state : State Cloud.t := Cloud.initial cloud.

Definition op : BaseOperation Cloud.t := mkOperation Cloud.handle "p1" "z1".

(** The operations map the rescue workflow builds. *)
Definition rescue_map : gmap string (Operation Cloud.t) :=
  <["Create Snapshot" := mkOp CreateSnapshot op]>
  (<["Stop VM" := mkOp StopVM op]>
  (<["Create Rescue Disk" := mkOp CreateDisk op]>
  (<["Detach Boot Disk" := mkOp DetachDisk op]>
  (<["Attach Rescue Disk" := mkOp AttachDisk op]>
  (<["Set Metadata" := mkOp SetMetadata op]>
  (<["Start VM" := mkOp StartVM op]>
  (<["Attach Original Disk" := mkOp AttachDisk op]> ∅))))))).


Definition stopped : OperationState :=
  mkOpState "Stop VM" true "VM stopped (0s)"
    (Some [("vm_name", PStr "web-1"); ("original_status", PStr "RUNNING")]) 0.

Definition disk_created : OperationState :=
  mkOpState "Create Rescue Disk" true "Disk created (0s)"
    (Some [("disk_name", PStr "rescue-disk-0")]) 0.

Definition detach_failed : OperationState :=
  mkOpState "Detach Boot Disk" false "Failed to detach disk" None 0.


Definition script (disk : pyval) : string :=
  "#!/bin/bash disk=" ++ py_str disk.

End Sample.

(** [info] is the attachment configuration read off the entry [disk] of
    an instance's disk list, defaults included. *)
Definition config_of (disk : pyval) (info : dict) : Prop :=
  exists source boot autoDelete deviceName mode,
    py_item disk "source" = Ok source /\
    py_get disk "boot" (PBool false) = Ok boot /\
    py_get disk "autoDelete" (PBool false) = Ok autoDelete /\
    py_item disk "deviceName" = Ok deviceName /\
    py_get disk "mode" (PStr "READ_WRITE") = Ok mode /\
    info = [("source", source); ("boot", boot); ("autoDelete", autoDelete);
            ("deviceName", deviceName); ("mode", mode)].

(** The status check [check_func] answers every time and never shows
    the status waited for. *)
Definition never_reaches {W} (check_func : M W pyval) (target : string) : Prop :=
  forall s, exists v, fst (check_func s) = Ok v /\ py_eq_str v target = false.

(** The remote side answers the request in every environment. *)
Definition always_accepts {W} (compute : Compute W) (call : ApiCall) : Prop :=
  forall w, exists v w' dt, compute call w = (Reply v, w', dt).

(** The remote side answers the lookup in every environment, with a
    status that is none of [targets]. *)
Definition never_reports {W} (compute : Compute W) (call : ApiCall)
    (targets : list string) : Prop :=
  forall w, exists v w' dt st,
    compute call w = (Reply v, w', dt) /\
    py_item v "status" = Ok st /\
    forallb (fun t => negb (py_eq_str st t)) targets = true.

(** The status the lookup shows in the environment [w]. *)
Definition reports_now {W} (compute : Compute W) (call : ApiCall) (w : W)
    (status : string) : Prop :=
  exists v w' dt st,
    compute call w = (Reply v, w', dt) /\
    py_item v "status" = Ok st /\
    py_eq_str st status = true.

(** An instance that accepts every request and never leaves RUNNING;
    the environment counts the requests. *)
Definition stuck_running : Compute nat := fun call n =>
  match call with
  | instances_get _ _ _ =>
      (Reply (PDict [("name", PStr "web-1"); ("status", PStr "RUNNING")]),
       S n, 1%nat)
  | _ => (Reply (PDict [("status", PStr "DONE")]), S n, 1%nat)
  end.

(** No answer to the lookup, in any environment, shows a status among
    [targets]; the lookup may also fail. *)
Definition never_shows {W} (compute : Compute W) (call : ApiCall)
    (targets : list string) : Prop :=
  forall w v w' dt st,
    compute call w = (Reply v, w', dt) ->
    py_item v "status" = Ok st ->
    forallb (fun t => negb (py_eq_str st t)) targets = true.

(** * Theorems *)

Local Open Scope list_scope.

(** ** Logs *)

Lemma compensations_app (l1 l2 : list Event) :
  compensations (l1 ++ l2) = compensations l1 ++ compensations l2.
Proof.
  induction l1 as [|[c|n d] l1 IH]; simpl; [reflexivity|exact IH|].
  now rewrite IH.
Qed.

Lemma requests_app (l1 l2 : list Event) :
  requests (l1 ++ l2) = requests l1 ++ requests l2.
Proof.
  induction l1 as [|[c|n d] l1 IH]; simpl; [reflexivity| |exact IH].
  now rewrite IH.
Qed.

(** ** Tame computations *)

Section Tame.
Context {W : Type}.

Lemma tame_quiet {A} (m : M W A) (s : State W) :
  tame_at m s -> compensations (log (snd (m s))) = compensations (log s).
Proof.
  intros (_ & _ & l & Hl & Hc). rewrite Hl, compensations_app, Hc.
  apply app_nil_r.
Qed.

Lemma tame_ret {A} (a : A) : tame (ret (W:=W) a).
Proof.
  intros s; repeat split; simpl; [lia|]. exists []. now rewrite app_nil_r.
Qed.

Lemma tame_raise {A} (e : exn) : tame (raise (W:=W) (A:=A) e).
Proof.
  intros s; repeat split; simpl; [lia|]. exists []. now rewrite app_nil_r.
Qed.

Lemma tame_time_time : tame (time_time (W:=W)).
Proof.
  intros s; repeat split; simpl; [lia|]. exists []. now rewrite app_nil_r.
Qed.

Lemma tame_time_sleep (n : Z) : 0 <= n -> tame (time_sleep (W:=W) n).
Proof.
  intros Hn s; repeat split; simpl; [lia|]. exists []. now rewrite app_nil_r.
Qed.

Lemma tame_request (c : Compute W) (call : ApiCall) : tame (request c call).
Proof.
  intros s. unfold tame_at, request.
  destruct (c call (env s)) as [[[v|e] w] dt]; simpl;
    (repeat split; [lia|]; exists [Request call]; now split).
Qed.

Lemma tame_lift {A} (o : outcome A) : returned o -> tame (lift (W:=W) o).
Proof.
  intros Ho s; repeat split; simpl; [exact Ho|lia|].
  exists []. now rewrite app_nil_r.
Qed.

Lemma tame_at_bind {A B} (m : M W A) (k : A -> M W B) (s : State W) :
  tame_at m s ->
  (forall a, fst (m s) = Ok a -> tame_at (k a) (snd (m s))) ->
  tame_at (bind m k) s.
Proof.
  unfold tame_at, bind. intros (Hr & Hc & l & Hl & Hq) Hk.
  destruct (m s) as [[a|e|] s1]; simpl in *;
    [|repeat split; [assumption|]; now exists l|contradiction].
  destruct (Hk a eq_refl) as (Hr' & Hc' & l' & Hl' & Hq').
  repeat split; [assumption|lia|].
  exists (l ++ l'). rewrite Hl', Hl, app_assoc, compensations_app, Hq, Hq'.
  now split.
Qed.

Lemma tame_bind {A B} (m : M W A) (k : A -> M W B) :
  tame m -> (forall a, tame (k a)) -> tame (bind m k).
Proof. intros Hm Hk s. apply tame_at_bind; [apply Hm|intros; apply Hk]. Qed.

Lemma tame_catch {A} (m : M W A) (h : exn -> M W A) :
  tame m -> (forall e, tame (h e)) -> tame (catch m h).
Proof.
  intros Hm Hh s. unfold tame_at, catch.
  destruct (Hm s) as (Hr & Hc & l & Hl & Hq).
  destruct (m s) as [[a|e|] s1]; simpl in *;
    [repeat split; [assumption|]; now exists l| |contradiction].
  destruct (Hh e s1) as (Hr' & Hc' & l' & Hl' & Hq').
  repeat split; [assumption|lia|].
  exists (l ++ l'). rewrite Hl', Hl, app_assoc, compensations_app, Hq, Hq'.
  now split.
Qed.

End Tame.

(** ** Pure operations never hang *)

Lemma py_item_returned v k : returned (py_item v k).
Proof. destruct v; simpl; auto. destruct (dict_lookup d k); simpl; auto. Qed.

Lemma py_get_returned v k d : returned (py_get v k d).
Proof. destruct v; simpl; auto. destruct (dict_lookup _ k); simpl; auto. Qed.

Lemma py_iter_returned v : returned (py_iter v).
Proof. destruct v; simpl; auto. Qed.

Lemma py_contains_returned v k : returned (py_contains v k).
Proof. destruct v; simpl; auto. Qed.

Lemma py_split_last_returned v : returned (py_split_last v).
Proof. destruct v; simpl; auto. Qed.

Lemma py_len_returned v : returned (py_len v).
Proof. destruct v; simpl; auto. Qed.

Create HintDb tame.

#[local] Hint Resolve py_item_returned py_get_returned py_iter_returned
  py_contains_returned py_split_last_returned py_len_returned : tame.

(** One step of a proof that a straight-line computation is tame. *)
Ltac tame_step :=
  first
    [ solve [eauto 3 with tame nocore]
    | apply tame_ret
    | apply tame_raise
    | apply tame_time_time
    | apply tame_time_sleep; lia
    | apply tame_request
    | apply tame_lift; solve [auto with tame]
    | apply tame_bind; [|intros ?]
    | apply tame_catch; [|intros ?]
    | match goal with
      | |- tame (if ?b then _ else _) => destruct b
      | |- tame (match ?o with Some _ => _ | None => _ end) => destruct o
      | |- tame (let _ := _ in _) => cbv zeta
      end ].

Ltac tame_auto := repeat tame_step; eauto with tame.

(** ** Polling comes back *)

Section Polling.
Context {W : Type}.

Lemma poll_budget_enough (timeout : Z) :
  timeout < 5 * (Z.of_nat (poll_budget timeout) - 1).
Proof.
  unfold poll_budget.
  destruct (Z.lt_ge_cases timeout 0) as [Hneg|Hpos].
  - lia.
  - rewrite !Nat2Z.inj_succ, Z2Nat.id by (apply Z.div_pos; lia).
    pose proof (Z.mul_succ_div_gt timeout 5 ltac:(lia)). lia.
Qed.

Lemma tame_wait_loop (check : M W pyval) (target : string)
    (timeout start : Z) :
  tame check ->
  forall (fuel : nat) (s : State W),
    (1 <= fuel)%nat ->
    timeout - (now s - start) < 5 * (Z.of_nat fuel - 1) ->
    tame_at (wait_loop fuel check target timeout start) s.
Proof.
  intros Hcheck. induction fuel as [|fuel IH]; intros s Hfuel Hd; [lia|].
  cbn [wait_loop].
  apply tame_at_bind; [apply tame_time_time|].
  intros t Ht. cbn in Ht. injection Ht as <-. cbn [time_time snd].
  destruct (timeout <? now s - start) eqn:Hexp; [apply tame_ret|].
  apply Z.ltb_ge in Hexp.
  apply tame_at_bind; [apply Hcheck|]. intros cur _.
  destruct (py_eq_str cur target); [apply tame_ret|].
  apply tame_at_bind; [apply tame_time_sleep; lia|]. intros [] _.
  destruct (Hcheck s) as (_ & Hclock & _).
  apply IH; cbn [time_sleep snd now]; lia.
Qed.

Lemma tame_wait_for_status (check : M W pyval) (target : string)
    (timeout : Z) :
  tame check -> tame (_wait_for_status check target timeout).
Proof.
  intros Hcheck s. unfold _wait_for_status.
  apply tame_at_bind; [apply tame_time_time|].
  intros t Ht. cbn in Ht. injection Ht as <-. cbn [time_time snd].
  apply tame_wait_loop; [assumption|unfold poll_budget; lia|].
  pose proof (poll_budget_enough timeout). lia.
Qed.

End Polling.

#[local] Hint Resolve tame_wait_for_status : tame.

(** ** Every operation is tame *)

Section OperationsTame.
Context {W : Type} (self : BaseOperation W).

Lemma tame_stop_get_status vm : tame (StopVMOperation.get_status self vm).
Proof. unfold StopVMOperation.get_status. tame_auto. Qed.

Lemma tame_start_get_status vm : tame (StartVMOperation.get_status self vm).
Proof. unfold StartVMOperation.get_status. tame_auto. Qed.

Lemma tame_disk_get_status d : tame (CreateDiskOperation.get_status self d).
Proof. unfold CreateDiskOperation.get_status. tame_auto. Qed.

Hint Resolve tame_stop_get_status tame_start_get_status
  tame_disk_get_status : tame.

Lemma tame_stop_execute vm timeout :
  tame (StopVMOperation.execute self vm timeout).
Proof. unfold StopVMOperation.execute. tame_auto. Qed.

Lemma tame_stop_rollback rd : tame (StopVMOperation.rollback self rd).
Proof. unfold StopVMOperation.rollback. tame_auto. Qed.

Lemma tame_start_execute vm timeout :
  tame (StartVMOperation.execute self vm timeout).
Proof. unfold StartVMOperation.execute. tame_auto. Qed.

Lemma tame_start_rollback rd : tame (StartVMOperation.rollback self rd).
Proof. unfold StartVMOperation.rollback. tame_auto. Qed.

Lemma tame_create_disk_execute d size ty img timeout :
  tame (CreateDiskOperation.execute self d size ty img timeout).
Proof. unfold CreateDiskOperation.execute. tame_auto. Qed.

Lemma tame_create_disk_rollback rd : tame (CreateDiskOperation.rollback self rd).
Proof. unfold CreateDiskOperation.rollback. tame_auto. Qed.

Lemma tame_attach_execute vm d boot ad ro :
  tame (AttachDiskOperation.execute self vm d boot ad ro).
Proof. unfold AttachDiskOperation.execute. tame_auto. Qed.

Lemma tame_attach_rollback rd : tame (AttachDiskOperation.rollback self rd).
Proof. unfold AttachDiskOperation.rollback. tame_auto. Qed.

Lemma tame_find_disk_info disks dev :
  tame (DetachDiskOperation.find_disk_info (W:=W) disks dev).
Proof.
  induction disks as [|disk rest IH]; cbn [DetachDiskOperation.find_disk_info];
    tame_auto.
Qed.

Hint Resolve tame_find_disk_info : tame.

Lemma tame_detach_execute vm dev :
  tame (DetachDiskOperation.execute self vm dev).
Proof. unfold DetachDiskOperation.execute. tame_auto. Qed.

Lemma tame_detach_rollback rd : tame (DetachDiskOperation.rollback self rd).
Proof. unfold DetachDiskOperation.rollback. tame_auto. Qed.

Lemma tame_set_metadata_execute vm items :
  tame (SetMetadataOperation.execute self vm items).
Proof. unfold SetMetadataOperation.execute. tame_auto. Qed.

Lemma tame_set_metadata_rollback rd : tame (SetMetadataOperation.rollback self rd).
Proof. unfold SetMetadataOperation.rollback. tame_auto. Qed.

Lemma tame_delete_disk_execute d : tame (DeleteDiskOperation.execute self d).
Proof. unfold DeleteDiskOperation.execute. tame_auto. Qed.

Lemma tame_delete_disk_rollback rd : tame (DeleteDiskOperation.rollback self rd).
Proof. unfold DeleteDiskOperation.rollback. tame_auto. Qed.

End OperationsTame.

#[local] Hint Resolve tame_stop_get_status tame_start_get_status
  tame_disk_get_status tame_find_disk_info : tame.

Section SnapshotTame.
Context {W : Type} (self : BaseOperation W).

Lemma tame_snapshot_poll (disk snap : pyval) (timeout start : Z) :
  forall (fuel : nat) (s : State W),
    (1 <= fuel)%nat ->
    timeout - (now s - start) < 5 * (Z.of_nat fuel - 1) ->
    tame_at (CreateSnapshotOperation.poll fuel self disk snap timeout start) s.
Proof.
  induction fuel as [|fuel IH]; intros s Hfuel Hd; [lia|].
  cbn [CreateSnapshotOperation.poll].
  apply tame_at_bind; [apply tame_time_time|].
  intros t Ht. cbn in Ht. injection Ht as <-. cbn [time_time snd].
  destruct (timeout <? now s - start) eqn:Hexp; [apply tame_ret|].
  apply Z.ltb_ge in Hexp.
  match goal with
  | |- tame_at (bind ?m _) _ =>
      assert (Hm : tame m) by tame_auto;
      apply tame_at_bind; [apply Hm|]; intros [r|] _; [apply tame_ret|];
      destruct (Hm s) as (_ & Hclock & _)
  end.
  apply tame_at_bind; [apply tame_time_sleep; lia|]. intros [] _.
  apply IH; cbn [time_sleep snd now]; lia.
Qed.

Lemma tame_snapshot_execute disk snap descr timeout :
  tame (CreateSnapshotOperation.execute self disk snap descr timeout).
Proof.
  unfold CreateSnapshotOperation.execute.
  apply tame_bind; [tame_auto|]. intros snap'.
  apply tame_catch; [|intros; apply tame_ret].
  cbv zeta. apply tame_bind; [apply tame_request|]. intros _.
  intros s. apply tame_at_bind; [apply tame_time_time|].
  intros t Ht. cbn in Ht. injection Ht as <-. cbn [time_time snd].
  apply tame_snapshot_poll; [unfold poll_budget; lia|].
  pose proof (poll_budget_enough timeout). lia.
Qed.

Lemma tame_snapshot_rollback rd : tame (CreateSnapshotOperation.rollback self rd).
Proof. unfold CreateSnapshotOperation.rollback. tame_auto. Qed.

End SnapshotTame.

(** ** Rollbacks answer with a boolean *)

Section RollbackTotal.
Context {W : Type}.

Lemma total_ret {A} (a : A) : total (ret (W:=W) a).
Proof. intros s. now exists a. Qed.

Lemma total_catch {A} (m : M W A) (h : exn -> M W A) :
  tame m -> (forall e, total (h e)) -> total (catch m h).
Proof.
  intros Hm Hh s. unfold catch.
  destruct (Hm s) as (Hr & _).
  destruct (m s) as [[a|e|] s1]; simpl in *; [now exists a|apply Hh|contradiction].
Qed.

Lemma tame_Operation_rollback (op : Operation W) (rd : dict) :
  tame (Operation_rollback op rd).
Proof.
  unfold Operation_rollback. destruct (class op).
  - apply tame_stop_rollback.
  - apply tame_start_rollback.
  - apply tame_create_disk_rollback.
  - apply tame_attach_rollback.
  - apply tame_detach_rollback.
  - apply tame_set_metadata_rollback.
  - apply tame_delete_disk_rollback.
  - apply tame_snapshot_rollback.
Qed.

Lemma total_Operation_rollback (op : Operation W) (rd : dict) :
  total (Operation_rollback op rd).
Proof.
  unfold Operation_rollback. destruct (class op).
  - unfold StopVMOperation.rollback.
    apply total_catch; [tame_auto|intros; apply total_ret].
  - unfold StartVMOperation.rollback.
    apply total_catch; [tame_auto|intros; apply total_ret].
  - unfold CreateDiskOperation.rollback.
    apply total_catch; [tame_auto|intros; apply total_ret].
  - unfold AttachDiskOperation.rollback.
    apply total_catch; [tame_auto|intros; apply total_ret].
  - unfold DetachDiskOperation.rollback.
    apply total_catch; [tame_auto|intros; apply total_ret].
  - unfold SetMetadataOperation.rollback.
    apply total_catch; [tame_auto|intros; apply total_ret].
  - apply total_ret.
  - unfold CreateSnapshotOperation.rollback.
    destruct (negb _); [apply total_ret|].
    destruct (negb _); [apply total_ret|].
    apply total_catch; [tame_auto|intros; apply total_ret].
Qed.

End RollbackTotal.

(** ** The rollback handler *)

Section Handler.
Context {W : Type} (operations_map : gmap string (Operation W)).

(** What one round of the loop does: it answers with a flag that can
    only go down, and it records one call of [rollback] exactly when
    the step is compensable. *)
Lemma rollback_step_spec (b : bool) (op : OperationState) (s : State W) :
  exists b',
    fst (RollbackHandler.rollback_step operations_map b op s) = Ok b' /\
    (b' = true -> b = true) /\
    now s <= now (snd (RollbackHandler.rollback_step operations_map b op s)) /\
    compensations (log (snd (RollbackHandler.rollback_step operations_map b op s)))
    = compensations (log s)
      ++ (if compensable operations_map op then [compensation_of op] else []).
Proof.
  unfold RollbackHandler.rollback_step, compensable, compensation_of.
  destruct (operations_map !! st_operation_name op) as [operation|];
    [|exists false; cbn; rewrite app_nil_r; repeat split; [discriminate|lia]].
  destruct (st_rollback_data op) as [data|]; cbn [truthy_data];
    [|exists b; cbn; rewrite app_nil_r; repeat split; [auto|lia]].
  destruct (truthy (PDict data)); cbn [negb];
    [|exists b; cbn; rewrite app_nil_r; repeat split; [auto|lia]].
  unfold catch, bind, emit. cbn beta iota.
  set (s1 := mkState (log s ++ [Compensate (st_operation_name op) data])
               (now s) (env s)).
  destruct (total_Operation_rollback operation data s1) as [ok Hok].
  pose proof (tame_quiet _ _ (tame_Operation_rollback operation data s1)) as Hquiet.
  destruct (tame_Operation_rollback operation data s1) as (_ & Hclock & _).
  destruct (Operation_rollback operation data s1) as [o s2].
  cbn in Hok. subst o. cbn [fst snd] in *.
  assert (Hlog : compensations (log s2)
                 = compensations (log s) ++ [(st_operation_name op, data)]).
  { rewrite Hquiet. unfold s1. cbn [log]. now rewrite compensations_app. }
  destruct ok; cbn [ret fst snd].
  - exists b. repeat split; [auto|exact Hclock|exact Hlog].
  - exists false. repeat split; [discriminate|exact Hclock|exact Hlog].
Qed.


Lemma rollback_loop_spec (ops : list OperationState) :
  forall (b : bool) (s : State W),
  exists b',
    fst (RollbackHandler.rollback_loop operations_map ops b s) = Ok b' /\
    (b' = true -> b = true) /\
    now s <= now (snd (RollbackHandler.rollback_loop operations_map ops b s)) /\
    compensations (log (snd (RollbackHandler.rollback_loop operations_map ops b s)))
    = compensations (log s)
      ++ List.map compensation_of (List.filter (compensable operations_map) ops).
Proof.
  induction ops as [|op rest IH]; intros b s; cbn [RollbackHandler.rollback_loop].
  - exists b. cbn. rewrite app_nil_r. repeat split; [auto|lia].
  - destruct (rollback_step_spec b op s) as (b1 & H1 & Hb1 & Hc1 & Hl1).
    unfold bind.
    destruct (RollbackHandler.rollback_step operations_map b op s) as [o s1].
    cbn [fst snd] in *. subst o.
    destruct (IH b1 s1) as (b2 & H2 & Hb2 & Hc2 & Hl2).
    exists b2. repeat split; [exact H2|auto|lia|].
    rewrite Hl2, Hl1, <- app_assoc. f_equal. cbn [List.filter].
    now destruct (compensable operations_map op).
Qed.

(** The handler as a whole, for any tracker. *)
Lemma rollback_spec (tracker : StateTracker.t) (s : State W) :
  exists b,
    fst (RollbackHandler.rollback tracker operations_map s) = Ok b /\
    compensations (log (snd (RollbackHandler.rollback tracker operations_map s)))
    = compensations (log s)
      ++ List.map compensation_of
           (List.filter (compensable operations_map)
              (StateTracker.get_rollback_operations tracker)).
Proof.
  unfold RollbackHandler.rollback.
  destruct (StateTracker.get_rollback_operations tracker) as [|op rest] eqn:E.
  - exists true. cbn. now rewrite app_nil_r.
  - destruct (rollback_loop_spec (op :: rest) true s) as (b & Hb & _ & _ & Hl).
    exists b. split; assumption.
Qed.

End Handler.

(** ** Claims about the rollback handler *)

Lemma filter_all_true {A} (f : A -> bool) (l : list A) :
  Forall (fun x => f x = true) l -> List.filter f l = l.
Proof.
  induction 1 as [|x l Hx _ IH]; cbn; [reflexivity|]. now rewrite Hx, IH.
Qed.

Lemma rollback_operations_prefix (pre : list OperationState)
    (failed : OperationState) (t0 : Z) :
  Forall (fun st => st_success st = true) pre ->
  st_success failed = false ->
  StateTracker.get_rollback_operations (StateTracker.mk (pre ++ [failed]) t0)
  = rev pre.
Proof.
  intros Hpre Hfailed.
  unfold StateTracker.get_rollback_operations,
    StateTracker.get_successful_operations. cbn [StateTracker.operations].
  rewrite List.filter_app. cbn [List.filter]. rewrite Hfailed, app_nil_r.
  now rewrite filter_all_true.
Qed.

(** C1.  A run whose steps 1 .. k-1 succeeded and whose step k failed
    leaves the tracker [pre ++ [failed]].  Every step a workflow tracks
    is registered in the operations map and carries rollback data; for
    such a run the handler calls [rollback] for exactly the steps
    k-1 .. 1, in that order, each once and with the data recorded for
    it, and never for the failed step. *)
Theorem rollback_compensates_exactly_reverse {W}
    (operations_map : gmap string (Operation W))
    (pre : list OperationState) (failed : OperationState) (t0 : Z)
    (s : State W) :
  Forall (fun st => st_success st = true) pre ->
  st_success failed = false ->
  Forall (fun st => compensable operations_map st = true) pre ->
  compensations
    (log (snd (RollbackHandler.rollback
                 (StateTracker.mk (pre ++ [failed]) t0) operations_map s)))
  = compensations (log s) ++ List.map compensation_of (rev pre).
Proof.
  intros Hpre Hfailed Hcomp.
  destruct (rollback_spec operations_map (StateTracker.mk (pre ++ [failed]) t0) s)
    as (b & _ & Hlog).
  rewrite Hlog, rollback_operations_prefix by assumption.
  rewrite filter_all_true; [reflexivity|].
  now apply List.Forall_rev.
Qed.

Lemma rollback_compensates_exactly_reverse_witness :
  compensations
    (log (snd (RollbackHandler.rollback
                 (StateTracker.mk
                    ([Sample.stopped; Sample.disk_created] ++ [Sample.detach_failed]) 0)
                 Sample.rescue_map Sample.state)))
  = compensations (log Sample.state)
    ++ List.map compensation_of (rev [Sample.stopped; Sample.disk_created]).
Proof.
  apply (rollback_compensates_exactly_reverse Sample.rescue_map
           [Sample.stopped; Sample.disk_created] Sample.detach_failed 0
           Sample.state).
  - repeat constructor.
  - reflexivity.
  - repeat constructor.
Defined.

Section HandlerFlag.
Context {W : Type} (operations_map : gmap string (Operation W)).





End HandlerFlag.




(** ** CreateSnapshotOperation.rollback *)

Lemma snapshot_rollback_true {W} (self : BaseOperation W) (rd : dict)
    (s : State W) :
  fst (CreateSnapshotOperation.rollback self rd s) = Ok true.
Proof.
  unfold CreateSnapshotOperation.rollback.
  destruct (negb (truthy (dict_get rd "created_by_operation"))); [reflexivity|].
  destruct (negb (truthy (dict_get rd "snapshot_name"))); [reflexivity|].
  unfold catch, bind, request.
  destruct (compute self _ (env s)) as [[[v|e] w] dt]; reflexivity.
Qed.

(** C10.  [CreateSnapshotOperation.rollback] answers [True] for every
    rollback data and every behaviour of the remote side, a failing
    delete included; so a round of the rollback handler that compensates
    a snapshot step hands back the flag it was given. *)
Theorem snapshot_rollback_never_fails {W}
    (operations_map : gmap string (Operation W)) (operation : Operation W)
    (op_state : OperationState) (rd : dict) (b : bool) (s : State W) :
  operations_map !! st_operation_name op_state = Some operation ->
  class operation = CreateSnapshot ->
  fst (CreateSnapshotOperation.rollback (self operation) rd s) = Ok true
  /\ fst (RollbackHandler.rollback_step operations_map b op_state s) = Ok b.
Proof.
  intros Hmap Hclass. split; [apply snapshot_rollback_true|].
  unfold RollbackHandler.rollback_step. rewrite Hmap.
  destruct (st_rollback_data op_state) as [data|]; [|reflexivity].
  destruct (truthy (PDict data)); [|reflexivity]. cbn [negb].
  unfold catch, bind at 1, emit. unfold bind, Operation_rollback.
  rewrite Hclass.
  match goal with
  | |- context [CreateSnapshotOperation.rollback ?sf ?d ?st] =>
      pose proof (snapshot_rollback_true sf d st) as H;
      destruct (CreateSnapshotOperation.rollback sf d st) as [o s2]
  end.
  cbn in H. subst o. reflexivity.
Qed.

Lemma snapshot_rollback_never_fails_witness :
  fst (CreateSnapshotOperation.rollback Sample.op
         [("snapshot_name", PStr "pre-rescue-web-1-boot-0");
          ("disk_name", PStr "web-1-boot");
          ("created_by_operation", PBool true)] Sample.state) = Ok true
  /\ fst (RollbackHandler.rollback_step Sample.rescue_map true
            (mkOpState "Create Snapshot" true "Snapshot created"
               (Some [("snapshot_name", PStr "pre-rescue-web-1-boot-0");
                      ("disk_name", PStr "web-1-boot");
                      ("created_by_operation", PBool true)]) 0)
            Sample.state) = Ok true.
Proof.
  apply (snapshot_rollback_never_fails Sample.rescue_map
           (mkOp CreateSnapshot Sample.op)); reflexivity.
Defined.

(** C5.  What [CreateSnapshotOperation.rollback] sends is decided by the
    record alone: the delete request for the recorded name when the
    record is marked [created_by_operation] and names a snapshot, and
    nothing at all otherwise. *)
Theorem snapshot_deleted_iff_created_here {W} (self : BaseOperation W)
    (rollback_data : dict) (s : State W) :
  log (snd (CreateSnapshotOperation.rollback self rollback_data s))
  = log s ++
    (if truthy (dict_get rollback_data "created_by_operation")
        && truthy (dict_get rollback_data "snapshot_name")
     then [Request (snapshots_delete (project self)
                      (dict_get rollback_data "snapshot_name"))]
     else []).
Proof.
  unfold CreateSnapshotOperation.rollback.
  destruct (truthy (dict_get rollback_data "created_by_operation"));
    cbn [negb andb]; [|cbn; now rewrite app_nil_r].
  destruct (truthy (dict_get rollback_data "snapshot_name"));
    cbn [negb]; [|cbn; now rewrite app_nil_r].
  unfold catch, bind, request.
  destruct (compute self _ (env s)) as [[[v|e] w] dt]; reflexivity.
Qed.

(** ** StopVMOperation.rollback and StartVMOperation.rollback *)

Lemma py_item_lookup (d : dict) (k : string) (v : pyval) :
  dict_lookup d k = Some v -> py_item (PDict d) k = Ok v.
Proof. intros H. cbn. now rewrite H. Qed.

(** C4, as the code has it.  The rollback of a run-state change looks at
    the recorded status only.  When the record says the VM was not
    running before the stop (was not stopped before the start), the
    rollback answers [True] and sends nothing.  When the record says
    RUNNING (TERMINATED), the start (stop) request is the first thing
    sent, whatever the status of the VM is now. *)
Theorem run_state_rollback_follows_record {W} (self : BaseOperation W)
    (rollback_data : dict) (vm_name original_status : pyval) (s : State W) :
  dict_lookup rollback_data "vm_name" = Some vm_name ->
  dict_lookup rollback_data "original_status" = Some original_status ->
  (py_eq_str original_status "RUNNING" = false ->
   StopVMOperation.rollback self rollback_data s = (Ok true, s))
  /\ (py_eq_str original_status "TERMINATED" = false ->
      StartVMOperation.rollback self rollback_data s = (Ok true, s))
  /\ (py_eq_str original_status "RUNNING" = true ->
      exists l,
        log (snd (StopVMOperation.rollback self rollback_data s))
        = log s ++ Request (instances_start (project self) (zone self) vm_name) :: l)
  /\ (py_eq_str original_status "TERMINATED" = true ->
      exists l,
        log (snd (StartVMOperation.rollback self rollback_data s))
        = log s ++ Request (instances_stop (project self) (zone self) vm_name) :: l).
Proof.
  intros Hvm Hst.
  apply py_item_lookup in Hvm. apply py_item_lookup in Hst.
  repeat split; intros Heq.
  - unfold StopVMOperation.rollback, catch, bind, lift.
    rewrite Hvm, Hst, Heq. reflexivity.
  - unfold StartVMOperation.rollback, catch, bind, lift.
    rewrite Hvm, Hst, Heq. reflexivity.
  - unfold StopVMOperation.rollback, catch, bind at 1 2, lift.
    rewrite Hvm, Hst, Heq.
    unfold bind at 1, request.
    destruct (compute self _ (env s)) as [[[v|e] w] dt];
      [|exists []; reflexivity].
    set (s1 := mkState _ _ _).
    destruct (tame_wait_for_status _ "RUNNING" 300
                (tame_stop_get_status self vm_name) s1)
      as (_ & _ & l & Hl & _).
    unfold bind.
    destruct (_wait_for_status _ _ _ s1) as [[[|]|e|] s2]; cbn in Hl |- *;
      exists l; rewrite Hl; unfold s1; cbn; now rewrite <- app_assoc.
  - unfold StartVMOperation.rollback, catch, bind at 1 2, lift.
    rewrite Hvm, Hst, Heq.
    unfold bind at 1, request.
    destruct (compute self _ (env s)) as [[[v|e] w] dt];
      [|exists []; reflexivity].
    set (s1 := mkState _ _ _).
    destruct (tame_wait_for_status _ "TERMINATED" 300
                (tame_start_get_status self vm_name) s1)
      as (_ & _ & l & Hl & _).
    unfold bind.
    destruct (_wait_for_status _ _ _ s1) as [[[|]|e|] s2]; cbn in Hl |- *;
      exists l; rewrite Hl; unfold s1; cbn; now rewrite <- app_assoc.
Qed.

Lemma run_state_rollback_follows_record_witness :
  (py_eq_str (PStr "TERMINATED") "RUNNING" = false ->
   StopVMOperation.rollback Sample.op
     [("vm_name", PStr "web-1"); ("original_status", PStr "TERMINATED")]
     Sample.state = (Ok true, Sample.state))
  /\ (py_eq_str (PStr "TERMINATED") "TERMINATED" = false ->
      StartVMOperation.rollback Sample.op
        [("vm_name", PStr "web-1"); ("original_status", PStr "TERMINATED")]
        Sample.state = (Ok true, Sample.state))
  /\ (py_eq_str (PStr "TERMINATED") "RUNNING" = true ->
      exists l,
        log (snd (StopVMOperation.rollback Sample.op
                    [("vm_name", PStr "web-1");
                     ("original_status", PStr "TERMINATED")] Sample.state))
        = log Sample.state
          ++ Request (instances_start "p1" "z1" (PStr "web-1")) :: l)
  /\ (py_eq_str (PStr "TERMINATED") "TERMINATED" = true ->
      exists l,
        log (snd (StartVMOperation.rollback Sample.op
                    [("vm_name", PStr "web-1");
                     ("original_status", PStr "TERMINATED")] Sample.state))
        = log Sample.state
          ++ Request (instances_stop "p1" "z1" (PStr "web-1")) :: l).
Proof.
  apply (run_state_rollback_follows_record Sample.op
           [("vm_name", PStr "web-1"); ("original_status", PStr "TERMINATED")]
           (PStr "web-1") (PStr "TERMINATED") Sample.state); reflexivity.
Defined.

(** C4 as stated fails: the VM runs, the record says it ran before the
    stop, and the rollback still sends the start request and polls. *)
Lemma stop_rollback_restarts_a_running_vm :
  Cloud.status (env Sample.state) = "RUNNING"
  /\ StopVMOperation.rollback Sample.op
       [("vm_name", PStr "web-1"); ("original_status", PStr "RUNNING")]
       Sample.state
     <> (Ok true, Sample.state)
  /\ requests
       (log (snd (StopVMOperation.rollback Sample.op
                    [("vm_name", PStr "web-1"); ("original_status", PStr "RUNNING")]
                    Sample.state)))
     = [instances_start "p1" "z1" (PStr "web-1");
        instances_get "p1" "z1" (PStr "web-1")].
Proof.
  split; [reflexivity|]. split; [|vm_compute; reflexivity].
  intros H. apply (f_equal (fun r => length (log (snd r)))) in H.
  vm_compute in H. discriminate.
Qed.

(** ** DetachDiskOperation *)

Section Detach.
Context {W : Type}.

Lemma lift_state {A} (o : outcome A) (s : State W) : snd (lift o s) = s.
Proof. reflexivity. Qed.

(** The search sends nothing, and what it finds is the configuration of
    an entry with the wanted device name. *)
Lemma find_disk_info_spec (disks : list pyval) (device_name : pyval)
    (s : State W) :
  exists o,
    DetachDiskOperation.find_disk_info disks device_name s = (o, s) /\
    forall info,
      o = Ok (Some info) ->
      exists disk dn,
        In disk disks /\ py_item disk "deviceName" = Ok dn /\
        py_eqb dn device_name = true /\ config_of disk info.
Proof.
  induction disks as [|disk rest IH];
    cbn [DetachDiskOperation.find_disk_info];
    [eexists; split; [reflexivity|discriminate]|].
  unfold bind, lift.
  destruct (py_item disk "deviceName") as [dn| |] eqn:Hdn;
    [|eexists; split; [reflexivity|discriminate]..].
  destruct (py_eqb dn device_name) eqn:Heq.
  - destruct (py_item disk "source") as [src| |] eqn:Hsrc;
      [|eexists; split; [reflexivity|discriminate]..].
    destruct (py_get disk "boot" (PBool false)) as [b| |] eqn:Hb;
      [|eexists; split; [reflexivity|discriminate]..].
    destruct (py_get disk "autoDelete" (PBool false)) as [ad| |] eqn:Had;
      [|eexists; split; [reflexivity|discriminate]..].
    destruct (py_get disk "mode" (PStr "READ_WRITE")) as [m| |] eqn:Hm;
      [|eexists; split; [reflexivity|discriminate]..].
    eexists; split; [reflexivity|]. intros info [= <-].
    exists disk, dn. repeat split; [now left|assumption..|].
    exists src, b, ad, dn, m. repeat split; assumption.
  - destruct IH as (o & IHs & IHf). exists o. split; [exact IHs|].
    intros info Hinfo. destruct (IHf info Hinfo) as (d & dn' & Hin & H).
    exists d, dn'. split; [now right|exact H].
Qed.

(** Re-attaching from a captured configuration sends exactly that
    configuration. *)
Lemma detach_rollback_log (self : BaseOperation W) (vm_name : pyval)
    (disk : pyval) (info : dict) (s : State W) :
  config_of disk info ->
  log (snd (DetachDiskOperation.rollback self
              [("vm_name", vm_name); ("disk_info", PDict info)] s))
  = log s ++ [Request (instances_attachDisk (project self) (zone self)
                         vm_name (PDict info))].
Proof.
  intros (src & b & ad & dn & m & _ & _ & _ & _ & _ & ->).
  unfold DetachDiskOperation.rollback, catch, bind, lift, request. cbn.
  destruct (compute self _ (env s)) as [[[v|e] w] dt]; reflexivity.
Qed.

End Detach.

(** C6.  A successful [DetachDiskOperation.execute] has read the instance
    first and sent the detach second; its rollback data holds the
    configuration (source, boot, autoDelete, deviceName, mode) of the
    device as that read showed it; and its rollback, from any later
    state, sends one attach request whose body is that configuration. *)
Theorem detach_captures_then_reattaches {W} (self : BaseOperation W)
    (vm_name : string) (device_name : pyval) (s : State W)
    (r : OperationResult) :
  fst (DetachDiskOperation.execute self vm_name device_name s) = Ok r ->
  success r = true ->
  exists vm disks_v disks disk info,
    fst (fst (compute self
                (instances_get (project self) (zone self) (PStr vm_name))
                (env s))) = Reply vm
    /\ py_get vm "disks" (PList []) = Ok disks_v
    /\ py_iter disks_v = Ok disks
    /\ In disk disks
    /\ (exists dn, py_item disk "deviceName" = Ok dn
                   /\ py_eqb dn device_name = true)
    /\ config_of disk info
    /\ log (snd (DetachDiskOperation.execute self vm_name device_name s))
       = log s ++
         [Request (instances_get (project self) (zone self) (PStr vm_name));
          Request (instances_detachDisk (project self) (zone self)
                     (PStr vm_name) device_name)]
    /\ rollback_data r
       = Some [("vm_name", PStr vm_name); ("disk_info", PDict info)]
    /\ forall s2 : State W,
         log (snd (DetachDiskOperation.rollback self
                     [("vm_name", PStr vm_name); ("disk_info", PDict info)] s2))
         = log s2 ++
           [Request (instances_attachDisk (project self) (zone self)
                       (PStr vm_name) (PDict info))].
Proof.
  destruct (DetachDiskOperation.execute self vm_name device_name s)
    as [o sf] eqn:Hrun.
  cbn [fst snd]. intros -> Hsucc. revert Hrun.
  unfold DetachDiskOperation.execute, catch, bind, request, lift, time_sleep.
  destruct (compute self (instances_get _ _ _) (env s)) as [[[vm|e] w] dt] eqn:Hget;
    [|intros [= <- <-]; discriminate].
  destruct (py_get vm "disks" (PList [])) as [dv|e|] eqn:Hdv;
    [|intros [= <- <-]; discriminate|discriminate].
  destruct (py_iter dv) as [disks|e|] eqn:Hit;
    [|intros [= <- <-]; discriminate|discriminate].
  match goal with
  | |- context [DetachDiskOperation.find_disk_info ?d ?n ?st] =>
      destruct (find_disk_info_spec d n st) as (o & Hfind & Hf); rewrite Hfind
  end.
  destruct o as [[info|]|e|];
    [|intros [= <- <-]; discriminate..|discriminate].
  destruct (Hf info eq_refl) as (disk & dn & Hin & Hdn & Heq & Hcfg).
  cbn [env].
  destruct (compute self (instances_detachDisk _ _ _ _) w)
    as [[[v|e] w'] dt']; [|intros [= <- <-]; discriminate].
  intros [= <- <-].
  exists vm, dv, disks, disk, info.
  repeat split; try assumption.
  - exists dn. now split.
  - cbn [log]. now rewrite <- app_assoc.
  - intros s2. now apply detach_rollback_log with (disk := disk).
Qed.

Lemma detach_captures_then_reattaches_witness :
  exists vm disks_v disks disk info,
    fst (fst (Cloud.handle (instances_get "p1" "z1" (PStr "web-1"))
                (env Sample.state))) = Reply vm
    /\ py_get vm "disks" (PList []) = Ok disks_v
    /\ py_iter disks_v = Ok disks
    /\ In disk disks
    /\ (exists dn, py_item disk "deviceName" = Ok dn
                   /\ py_eqb dn (PStr "data") = true)
    /\ config_of disk info
    /\ log (snd (DetachDiskOperation.execute Sample.op "web-1" (PStr "data")
                   Sample.state))
       = log Sample.state ++
         [Request (instances_get "p1" "z1" (PStr "web-1"));
          Request (instances_detachDisk "p1" "z1" (PStr "web-1") (PStr "data"))]
    /\ rollback_data
         (mkResult "Detach Disk" true "Disk detached"
            (Some [("vm_name", PStr "web-1");
                   ("disk_info", Cloud.disk_to_py Sample.data_disk)]) None)
       = Some [("vm_name", PStr "web-1"); ("disk_info", PDict info)]
    /\ forall s2 : State Cloud.t,
         log (snd (DetachDiskOperation.rollback Sample.op
                     [("vm_name", PStr "web-1"); ("disk_info", PDict info)] s2))
         = log s2 ++
           [Request (instances_attachDisk "p1" "z1" (PStr "web-1") (PDict info))].
Proof.
  apply (detach_captures_then_reattaches Sample.op "web-1" (PStr "data")
           Sample.state
           (mkResult "Detach Disk" true "Disk detached"
              (Some [("vm_name", PStr "web-1");
                     ("disk_info", Cloud.disk_to_py Sample.data_disk)]) None));
    reflexivity.
Defined.

(** ** Waits that run out of time *)

Section TimeOut.
Context {W : Type}.

Lemma wait_loop_times_out (check : M W pyval) (target : string)
    (timeout start : Z) :
  tame check -> never_reaches check target ->
  forall (fuel : nat) (s : State W),
    (1 <= fuel)%nat ->
    timeout - (now s - start) < 5 * (Z.of_nat fuel - 1) ->
    exists s',
      wait_loop fuel check target timeout start s = (Ok false, s') /\
      timeout < now s' - start.
Proof.
  intros Htame Hnever. induction fuel as [|fuel IH]; intros s Hfuel Hd; [lia|].
  cbn [wait_loop]. unfold bind at 1, time_time at 1.
  destruct (timeout <? now s - start) eqn:Hexp.
  - apply Z.ltb_lt in Hexp. exists s. split; [reflexivity|lia].
  - apply Z.ltb_ge in Hexp. unfold bind at 1.
    destruct (Hnever s) as (v & Hv & Hneq).
    destruct (Htame s) as (_ & Hclock & _).
    destruct (check s) as [o s1]. cbn in Hv, Hclock. subst o.
    rewrite Hneq. unfold bind, time_sleep.
    apply IH; cbn [now]; lia.
Qed.

Lemma wait_for_status_times_out (check : M W pyval) (target : string)
    (timeout : Z) (s : State W) :
  tame check -> never_reaches check target ->
  exists s',
    _wait_for_status check target timeout s = (Ok false, s') /\
    timeout < now s' - now s.
Proof.
  intros Htame Hnever. unfold _wait_for_status, bind, time_time.
  apply wait_loop_times_out; [assumption..|unfold poll_budget; lia|].
  pose proof (poll_budget_enough timeout). lia.
Qed.

End TimeOut.

Lemma py_item_get (v : pyval) (k : string) (d x : pyval) :
  py_item v k = Ok x -> py_get v k d = Ok x.
Proof.
  destruct v; cbn; try discriminate.
  now destruct (dict_lookup _ k).
Qed.

Section OperationsTimeOut.
Context {W : Type} (self : BaseOperation W).

Lemma never_reaches_vm_status (vm : pyval) (target : string) :
  never_reports (compute self)
    (instances_get (project self) (zone self) vm) [target] ->
  never_reaches (StopVMOperation.get_status self vm) target.
Proof.
  intros Hnever s. unfold StopVMOperation.get_status, bind, request, lift.
  destruct (Hnever (env s)) as (v & w' & dt & st & Hget & Hst & Hne).
  rewrite Hget, Hst. exists st. split; [reflexivity|].
  cbn in Hne. rewrite andb_true_r in Hne. now apply negb_true_iff in Hne.
Qed.

Lemma stop_times_out (vm_name : string) (timeout : Z) (s : State W) :
  reports_now (compute self)
    (instances_get (project self) (zone self) (PStr vm_name)) (env s) "RUNNING" ->
  always_accepts (compute self)
    (instances_stop (project self) (zone self) (PStr vm_name)) ->
  never_reports (compute self)
    (instances_get (project self) (zone self) (PStr vm_name)) ["TERMINATED"] ->
  fst (StopVMOperation.execute self vm_name timeout s)
  = Ok (mkResult "Stop VM" false
          ("Timeout waiting for VM to stop (>" ++ str_of_Z timeout ++ "s)")
          None None).
Proof.
  intros (v & w1 & dt & st & Hget & Hst & Hrun) Hstop Hnever.
  unfold StopVMOperation.execute, catch.
  unfold bind at 1, request at 1. rewrite Hget.
  unfold bind at 1, lift at 1. rewrite Hst, Hrun.
  unfold bind at 1, request at 1. cbn [env].
  destruct (Hstop w1) as (v2 & w2 & dt2 & Hstop2). rewrite Hstop2.
  unfold bind at 1, time_time at 1. unfold bind at 1.
  match goal with
  | |- context [_wait_for_status ?c ?t ?to ?st] =>
      destruct (wait_for_status_times_out c t to st
                  (tame_stop_get_status self _)
                  (never_reaches_vm_status _ _ Hnever)) as (s' & Hw & _);
      rewrite Hw
  end.
  reflexivity.
Qed.

Lemma start_times_out (vm_name : string) (timeout : Z) (s : State W) :
  reports_now (compute self)
    (instances_get (project self) (zone self) (PStr vm_name)) (env s) "TERMINATED" ->
  always_accepts (compute self)
    (instances_start (project self) (zone self) (PStr vm_name)) ->
  never_reports (compute self)
    (instances_get (project self) (zone self) (PStr vm_name)) ["RUNNING"] ->
  fst (StartVMOperation.execute self vm_name timeout s)
  = Ok (mkResult "Start VM" false
          ("Timeout waiting for VM to start (>" ++ str_of_Z timeout ++ "s)")
          None None).
Proof.
  intros (v & w1 & dt & st & Hget & Hst & Hrun) Hstart Hnever.
  unfold StartVMOperation.execute, catch.
  unfold bind at 1, request at 1. rewrite Hget.
  unfold bind at 1, lift at 1. rewrite Hst, Hrun.
  unfold bind at 1, request at 1. cbn [env].
  destruct (Hstart w1) as (v2 & w2 & dt2 & Hstart2). rewrite Hstart2.
  unfold bind at 1, time_time at 1. unfold bind at 1.
  match goal with
  | |- context [_wait_for_status ?c ?t ?to ?st] =>
      destruct (wait_for_status_times_out c t to st
                  (tame_start_get_status self _)
                  (never_reaches_vm_status _ _ Hnever)) as (s' & Hw & _);
      rewrite Hw
  end.
  reflexivity.
Qed.

End OperationsTimeOut.

Section DiskAndSnapshotTimeOut.
Context {W : Type} (self : BaseOperation W).

Lemma never_reaches_disk_status (disk : pyval) :
  never_shows (compute self)
    (disks_get (project self) (zone self) disk) ["READY"] ->
  never_reaches (CreateDiskOperation.get_status self disk) "READY".
Proof.
  intros Hnever s.
  unfold CreateDiskOperation.get_status, catch, bind, request, lift.
  destruct (compute self _ (env s)) as [[[v|e] w'] dt] eqn:Hget;
    [|exists (PStr "CREATING"); now split].
  destruct (py_item v "status") as [st|e|] eqn:Hst.
  - exists st. split; [reflexivity|].
    pose proof (Hnever _ _ _ _ _ Hget Hst) as Hne.
    cbn in Hne. rewrite andb_true_r in Hne. now apply negb_true_iff in Hne.
  - exists (PStr "CREATING"). now split.
  - pose proof (py_item_returned v "status") as Hr. rewrite Hst in Hr.
    contradiction.
Qed.

Lemma create_disk_times_out (disk_name : pyval) (size_gb : Z)
    (disk_type source_image : string) (timeout : Z) (s : State W) :
  (forall body, always_accepts (compute self)
                  (disks_insert (project self) (zone self) body)) ->
  never_shows (compute self)
    (disks_get (project self) (zone self) disk_name) ["READY"] ->
  fst (CreateDiskOperation.execute self disk_name size_gb disk_type
         source_image timeout s)
  = Ok (mkResult "Create Disk" false
          ("Timeout waiting for disk creation (>" ++ str_of_Z timeout ++ "s)")
          None None).
Proof.
  intros Hins Hnever.
  unfold CreateDiskOperation.execute, catch. cbv zeta.
  unfold bind at 1, request at 1.
  match goal with
  | |- context [compute self (disks_insert ?p ?z ?b) ?w] =>
      destruct (Hins b w) as (v & w1 & dt & Hi); rewrite Hi
  end.
  unfold bind at 1, time_time at 1. unfold bind at 1.
  match goal with
  | |- context [_wait_for_status ?c ?t ?to ?st] =>
      destruct (wait_for_status_times_out c t to st
                  (tame_disk_get_status self _)
                  (never_reaches_disk_status _ Hnever)) as (s' & Hw & _);
      rewrite Hw
  end.
  reflexivity.
Qed.

Lemma snapshot_poll_times_out (disk snap : pyval) (timeout start : Z) :
  never_shows (compute self) (snapshots_get (project self) snap)
    ["READY"; "FAILED"] ->
  forall (fuel : nat) (s : State W),
    (1 <= fuel)%nat ->
    timeout - (now s - start) < 5 * (Z.of_nat fuel - 1) ->
    fst (CreateSnapshotOperation.poll fuel self disk snap timeout start s)
    = Ok (mkResult "Create Snapshot" false
            ("Snapshot creation timeout after " ++ str_of_Z timeout ++ "s")
            None (Some "timeout")).
Proof.
  intros Hnever. induction fuel as [|fuel IH]; intros s Hfuel Hd; [lia|].
  cbn [CreateSnapshotOperation.poll]. unfold bind at 1, time_time at 1.
  destruct (timeout <? now s - start) eqn:Hexp; [reflexivity|].
  apply Z.ltb_ge in Hexp.
  unfold bind at 1, catch at 1, bind at 1, request at 1.
  destruct (compute self _ (env s)) as [[[v|e] w'] dt] eqn:Hget.
  - unfold bind at 1, lift at 1.
    destruct (py_get v "status" (PStr "UNKNOWN")) as [st|e|] eqn:Hst.
    + assert (Hne : py_eq_str st "READY" = false /\ py_eq_str st "FAILED" = false).
      { destruct (py_item v "status") as [st'|e|] eqn:Hit.
        - rewrite (py_item_get _ _ _ _ Hit) in Hst. injection Hst as <-.
          pose proof (Hnever _ _ _ _ _ Hget Hit) as H. cbn in H.
          rewrite andb_true_r in H. apply andb_true_iff in H as [H1 H2].
          apply negb_true_iff in H1, H2. now split.
        - destruct v; cbn in Hit, Hst; try discriminate.
          destruct (dict_lookup d "status"); [discriminate|].
          injection Hst as <-. now split.
        - pose proof (py_item_returned v "status") as Hr. rewrite Hit in Hr.
          contradiction. }
      destruct Hne as [-> ->]. unfold ret at 1, bind, time_sleep.
      apply IH; cbn [now]; lia.
    + unfold ret at 1, bind, time_sleep. apply IH; cbn [now]; lia.
    + pose proof (py_get_returned v "status" (PStr "UNKNOWN")) as Hr.
      rewrite Hst in Hr. contradiction.
  - unfold ret at 1, bind, time_sleep. apply IH; cbn [now]; lia.
Qed.

Lemma snapshot_times_out (disk_name snapshot_name description : pyval)
    (timeout : Z) (s : State W) :
  (forall body, always_accepts (compute self)
                  (disks_createSnapshot (project self) (zone self) disk_name body)) ->
  (forall snap, never_shows (compute self)
                  (snapshots_get (project self) snap) ["READY"; "FAILED"]) ->
  fst (CreateSnapshotOperation.execute self disk_name snapshot_name
         description timeout s)
  = Ok (mkResult "Create Snapshot" false
          ("Snapshot creation timeout after " ++ str_of_Z timeout ++ "s")
          None (Some "timeout")).
Proof.
  intros Hcreate Hnever.
  unfold CreateSnapshotOperation.execute. unfold bind at 1.
  match goal with
  | |- context [(if ?b then ?m1 else ?m2) s] =>
      assert (Hpre : exists n, (if b then m1 else m2) s = (Ok n, s))
        by (destruct b; eexists; reflexivity);
      destruct Hpre as (n & Hpre); rewrite Hpre
  end.
  cbv zeta. unfold catch, bind at 1, request at 1.
  match goal with
  | |- context [compute self (disks_createSnapshot ?p ?z ?d ?b) ?w] =>
      destruct (Hcreate b w) as (v & w1 & dt & Hc); rewrite Hc
  end.
  unfold bind at 1, time_time at 1.
  match goal with
  | |- context [CreateSnapshotOperation.poll ?f ?sf ?d ?sn ?to ?st ?s1] =>
      pose proof (snapshot_poll_times_out d sn to st (Hnever sn) f s1) as Hp;
      destruct (CreateSnapshotOperation.poll f sf d sn to st s1) as [o s2]
  end.
  cbn [fst] in Hp. rewrite Hp; [reflexivity|unfold poll_budget; lia|].
  cbn [now]. pose proof (poll_budget_enough timeout). lia.
Qed.

End DiskAndSnapshotTimeOut.
